(** * ShivyC parser (parser.py): a shallow embedding and its properties.

    The parser is a hand-written recursive-descent recogniser for

      program     := "int" "main" "(" ")" "{" statement* "}"
      statement   := "return" NUMBER ";"

    Every [expect_*] method threads the instance attribute [self.errors]
    and may raise a Python exception, so the methods are embedded in a
    state-and-exception monad over the [Parser] record.  Python integers
    are [Z]; list subscripts and slices follow Python's rules, negative
    subscripts included. *)

From Stdlib Require Import List ZArith String Bool Lia.
Import ListNotations.
Local Open Scope string_scope.
Local Open Scope list_scope.
Local Open Scope Z_scope.
Set Warnings "-register-all".

(** ** Python values used by the parser *)

Module Py.

(** [l[i]]: a subscript in [-len(l), len(l)) selects an element (negative
    ones count from the end); any other raises IndexError, here [None]. *)
Definition getitem {A : Type} (l : list A) (i : Z) : option A :=
  let n := Z.of_nat (List.length l) in
  if 0 <=? i then nth_error l (Z.to_nat i)
  else if - n <=? i then nth_error l (Z.to_nat (n + i))
  else None.

(** [l[i:]]: a negative start counts from the end and is clipped at 0. *)
Definition slice_from {A : Type} (l : list A) (i : Z) : list A :=
  if 0 <=? i then skipn (Z.to_nat i) l
  else skipn (Z.to_nat (Z.of_nat (List.length l) + i)) l.

(** The two kinds of value [match_tokens] returns: [False] and an int. *)
Inductive value : Type :=
| Bool (b : bool)
| Int (z : Z).

(** Truth value of an object in a condition. *)
Definition truthy (v : value) : bool :=
  match v with
  | Bool b => b
  | Int z => negb (z =? 0)
  end.

(** Numeric value of an object used as an operand of [+]. *)
Definition int_of (v : value) : Z :=
  match v with
  | Bool b => if b then 1 else 0
  | Int z => z
  end.

(** [sorted(l, key=key)]: the stable sort, as an insertion sort that
    puts an element in front of the first one whose key is not smaller,
    so that equal keys keep the order they have in [l]. *)
Fixpoint insert_by {A : Type} (key : A -> Z) (x : A) (l : list A) : list A :=
  match l with
  | [] => [x]
  | y :: l' => if key x <=? key y then x :: y :: l' else y :: insert_by key x l'
  end.

Fixpoint sorted {A : Type} (key : A -> Z) (l : list A) : list A :=
  match l with
  | [] => []
  | x :: l' => insert_by key x (sorted key l')
  end.

End Py.

(** ** Collaborators: token kinds, tokens, errors, AST nodes *)

(** Modelled from the spec: the module [token_kinds] is not part of the
    sources.  The parser names nine kinds and compares kinds with [==];
    [other_kind] stands for every further kind a lexer may produce. *)
Inductive TokenKind : Type :=
| int_kw | main | open_paren | close_paren | open_brack | close_brack
| return_kw | semicolon | number
| other_kind (id : nat).

Definition TokenKind_eq_dec (a b : TokenKind) : {a = b} + {a <> b}.
Proof. decide equality. apply Nat.eq_dec. Defined.

Definition kind_eqb (a b : TokenKind) : bool :=
  if TokenKind_eq_dec a b then true else false.

(** Modelled from the spec: the lexer's token class is not part of the
    sources.  A token carries a kind, its text, a file name and a line. *)
Record Token : Type := mkToken {
  kind : TokenKind;
  content : string;
  file_name : string;
  line_num : Z
}.

(** Modelled from the spec: [errors.CompilerError] is not part of the
    sources.  It is built from a description and, optionally, a file name
    and a line number (absent: [None]). *)
Record CompilerError : Type := mkCompilerError {
  descrip : string;
  err_file_name : option string;
  err_line_num : option Z
}.

(** Modelled from the spec: the module [ast] is not part of the sources.
    The three node classes the parser builds; instances are plain objects,
    hence true in a condition, while a missing node is [None]. *)
Inductive Node : Type :=
| MainNode (block_items : list Node)
| ReturnNode (return_value : Node)
| NumberNode (num : Token).

(** ** The parser object and the monad of its methods *)

Definition ErrorRecord : Type := CompilerError * Z.

Record Parser : Type := mkParser { errors : list ErrorRecord }.

(** [Parser.__init__] *)
Definition Parser_init : Parser := {| errors := [] |}.

Inductive exception : Type :=
| IndexError
| ValueError (msg : string)
| SyntaxError (e : CompilerError).

Inductive outcome (A : Type) : Type :=
| Returned (a : A)
| Raised (e : exception).
Arguments Returned {A} a.
Arguments Raised {A} e.

(** A method run: from the parser state to an outcome and the state left
    behind; [None] when the loop budget of the model is used up. *)
Definition M (A : Type) : Type := Parser -> option (outcome A * Parser).

Definition ret {A : Type} (a : A) : M A := fun p => Some (Returned a, p).

Definition raise {A : Type} (e : exception) : M A := fun p => Some (Raised e, p).

Definition out_of_fuel {A : Type} : M A := fun _ => None.

Definition bind {A B : Type} (m : M A) (f : A -> M B) : M B :=
  fun p =>
    match m p with
    | Some (Returned a, p') => f a p'
    | Some (Raised e, p') => Some (Raised e, p')
    | None => None
    end.

(** A subscript inside a method: IndexError when out of range. *)
Definition subscript {A : Type} (l : list A) (i : Z) : M A :=
  match Py.getitem l i with
  | Some a => ret a
  | None => raise IndexError
  end.

(** [self.errors], read *)
Definition get_errors : M (list ErrorRecord) :=
  fun p => Some (Returned (errors p), p).

(** [self.errors.append(r)] *)
Definition append_error (r : ErrorRecord) : M unit :=
  fun p => Some (Returned tt, {| errors := errors p ++ [r] |}).

Notation "x <- m ;; k" := (bind m (fun x => k))
  (at level 61, m at next level, right associativity).
Notation "' pat <- m ;; k" := (bind m (fun x => match x with pat => k end))
  (at level 61, pat pattern, m at next level, right associativity).

Definition len {A : Type} (l : list A) : Z := Z.of_nat (List.length l).

(** ** Utility methods *)

(** [Parser.match_tokens] *)
Definition match_tokens (tokens : list Token) (kinds_expected : list TokenKind)
  : Py.value :=
  if len tokens <? len kinds_expected then Py.Bool false
  else if forallb (fun '(k, token) => kind_eqb k (kind token))
                  (combine kinds_expected tokens)
       then Py.Int (len kinds_expected)
       else Py.Int 0.

Definition AT : Z := 1.
Definition GOT : Z := 2.
Definition AFTER : Z := 3.

(** The error built from a token: text, and the token's file and line. *)
Definition error_at (text : string) (t : Token) : CompilerError :=
  mkCompilerError text (Some (file_name t)) (Some (line_num t)).

(** [Parser.make_error] *)
Definition make_error (message : string) (index : Z) (tokens : list Token)
           (message_type : Z) : M CompilerError :=
  if len tokens =? 0 then
    ret (mkCompilerError (message ++ " at beginning of source") None None)
  else
    let '(index, message_type) :=
      if index >=? len tokens then (len tokens, AFTER)
      else if index <=? 0 then
             (0, if message_type =? AFTER then GOT else message_type)
           else (index, message_type) in
    if message_type =? AT then
      t <- subscript tokens index ;;
      ret (error_at (message ++ " at '" ++ content t ++ "'") t)
    else if message_type =? GOT then
      t <- subscript tokens index ;;
      ret (error_at (message ++ ", got '" ++ content t ++ "'") t)
    else if message_type =? AFTER then
      t <- subscript tokens (index - 1) ;;
      ret (error_at (message ++ " after '" ++ content t ++ "'") t)
    else raise (ValueError "Unknown error message type").

(** [Parser.add_error] *)
Definition add_error (message : string) (index : Z) (tokens : list Token)
           (message_type : Z) : M (option Node * Z) :=
  e <- make_error message index tokens message_type ;;
  _ <- append_error (e, index) ;;
  ret (None, 0).

(** ** Grammar matchers *)

(** [Parser.expect_expression] *)
Definition expect_expression (tokens : list Token) (index : Z)
  : M (option Node * Z) :=
  t <- subscript tokens index ;;
  if kind_eqb (kind t) number then ret (Some (NumberNode t), index + 1)
  else add_error "expected number" index tokens GOT.

(** [Parser.expect_return] *)
Definition expect_return (tokens : list Token) (index : Z)
  : M (option Node * Z) :=
  is_return <- (if len tokens >? index
                then t <- subscript tokens index ;;
                     ret (kind_eqb (kind t) return_kw)
                else ret false) ;;
  if is_return then
    let index := index + 1 in
    '(node, index) <- expect_expression tokens index ;;
    match node with
    | None => ret (None, 0)
    | Some node =>
        is_semicolon <- (if len tokens >? index
                         then t <- subscript tokens index ;;
                              ret (kind_eqb (kind t) semicolon)
                         else ret false) ;;
        if is_semicolon then
          let index := index + 1 in
          ret (Some (ReturnNode node), index)
        else add_error "expected semicolon" index tokens AFTER
    end
  else add_error "expected return keyword" index tokens GOT.

(** [Parser.expect_statement] *)
Definition expect_statement (tokens : list Token) (index : Z)
  : M (option Node * Z) :=
  '(node, index) <- expect_return tokens index ;;
  ret (node, index).

(** The [while True] loop of [expect_main]: one unit of [fuel] per
    iteration; it returns the nodes collected and the rewound index. *)
Fixpoint statement_loop (fuel : nat) (tokens : list Token) (index : Z)
         (nodes : list Node) : M (list Node * Z) :=
  match fuel with
  | O => out_of_fuel
  | S fuel' =>
      let prev_index := index in
      '(node, index) <- expect_statement tokens index ;;
      match node with
      | None => let index := prev_index in ret (nodes, index)
      | Some node => statement_loop fuel' tokens index (nodes ++ [node])
      end
  end.

(** [Parser.expect_main] *)
Definition expect_main (fuel : nat) (tokens : list Token) (index : Z)
  : M (option Node * Z) :=
  let kinds_before := [int_kw; main; open_paren; close_paren; open_brack] in
  let match_start := match_tokens (Py.slice_from tokens index) kinds_before in
  if Py.truthy match_start then
    let index := index + Py.int_of match_start in
    '(nodes, index) <- statement_loop fuel tokens index [] ;;
    is_close <- (if len tokens >? index
                 then t <- subscript tokens index ;;
                      ret (kind_eqb (kind t) close_brack)
                 else ret false) ;;
    if is_close then
      let index := index + 1 in
      ret (Some (MainNode nodes), index)
    else add_error "expected closing brace" index tokens GOT
  else add_error "expected main function starting" index tokens AT.

(** [Parser.parse], with the loop budget left open. *)
Definition parse_fuel (fuel : nat) (tokens : list Token) : M Node :=
  '(node, index) <- expect_main fuel tokens 0 ;;
  match node with
  | None =>
      self_errors <- get_errors ;;
      r <- subscript (Py.sorted snd self_errors) (-1) ;;
      raise (SyntaxError (fst r))
  | Some node =>
      match Py.slice_from tokens index with
      | _ :: _ =>
          e <- make_error "unexpected token" index tokens AT ;;
          raise (SyntaxError e)
      | [] => ret node
      end
  end.

(** [Parser.parse]: one loop iteration per token, and one to stop, is a
    budget the loop never uses up (see [parse_terminates]). *)
Definition parse (tokens : list Token) : M Node :=
  parse_fuel (S (List.length tokens)) tokens.

(** ** Token sequences of the scenarios

    Tokens as a lexer would hand them over for a one-line file. *)

Definition tk (k : TokenKind) (text : string) : Token :=
  mkToken k text "main.c" 1.

Definition header : list Token :=
  [tk int_kw "int"; tk main "main"; tk open_paren "(";
   tk close_paren ")"; tk open_brack "{"].

(** [int main ( ) { return 4 ; }] *)
Definition tokens_return_4 : list Token :=
  header ++ [tk return_kw "return"; tk number "4"; tk semicolon ";";
             tk close_brack "}"].

(** [int main ( ) { return ; }] *)
Definition tokens_return_nothing : list Token :=
  header ++ [tk return_kw "return"; tk semicolon ";"; tk close_brack "}"].

(** The two errors [int main ( ) { return ; }] leaves in the log. *)
Definition expected_number_error : CompilerError :=
  error_at "expected number, got ';'" (tk semicolon ";").

Definition expected_closing_brace_error : CompilerError :=
  error_at "expected closing brace, got 'return'" (tk return_kw "return").

Definition log_return_nothing : list ErrorRecord :=
  [(expected_number_error, 6); (expected_closing_brace_error, 5)].

(** [int main ( ) { return] *)
Definition tokens_cut_after_return : list Token :=
  header ++ [tk return_kw "return"].

(** [int main ( ) { return 4 ; } extra] *)
Definition tokens_extra : list Token :=
  tokens_return_4 ++ [tk (other_kind 0) "extra"].

(** ** Vocabulary of the statements below *)

(** [x] is the last of the elements of [l] whose key is greatest. *)
Definition last_greatest {A : Type} (key : A -> Z) (l : list A) (x : A) : Prop :=
  exists before after,
    l = before ++ x :: after
    /\ (forall y, In y before -> key y <= key x)
    /\ (forall y, In y after -> key y < key x).

(** The parser [p] with the records [extra] appended to its log. *)
Definition extend (p : Parser) (extra : list ErrorRecord) : Parser :=
  {| errors := errors p ++ extra |}.

(** [runs m p Q]: started in state [p], the method [m] comes to an end,
    leaves the log of [p] with some records [extra] appended, and its
    outcome and [extra] satisfy [Q]. *)
Definition runs {A : Type} (m : M A) (p : Parser)
           (Q : outcome A -> list ErrorRecord -> Prop) : Prop :=
  exists o extra, m p = Some (o, extend p extra) /\ Q o extra.

(** The guarded test [len(tokens) > index and tokens[index].kind == k],
    which the matchers write out three times. *)
Definition kind_test (tokens : list Token) (index : Z) (k : TokenKind) : M bool :=
  if len tokens >? index
  then t <- subscript tokens index ;; ret (kind_eqb (kind t) k)
  else ret false.

(** One of the three styles [make_error] knows. *)
Definition valid_style (message_type : Z) : Prop :=
  message_type = AT \/ message_type = GOT \/ message_type = AFTER.

(** [e] is the error [make_error] builds for these arguments. *)
Definition error_of (message : string) (index : Z) (tokens : list Token)
           (message_type : Z) (e : CompilerError) : Prop :=
  forall q, make_error message index tokens message_type q = Some (Returned e, q).

(** What a run of [expect_expression] started at [index] ends with. *)
Definition expression_post (tokens : list Token) (index : Z)
           (o : outcome (option Node * Z)) (ex : list ErrorRecord) : Prop :=
  match o with
  | Returned (Some node, index') =>
      ex = [] /\ index' = index + 1
      /\ exists t, Py.getitem tokens index = Some t /\ kind t = number
                   /\ node = NumberNode t
  | Returned (None, index') =>
      index' = 0
      /\ exists t e, Py.getitem tokens index = Some t /\ kind t <> number
                     /\ ex = [(e, index)]
                     /\ error_of "expected number" index tokens GOT e
  | Raised e =>
      e = IndexError /\ ex = [] /\ Py.getitem tokens index = None
  end.

(** The record a failing return statement leaves: one of three. *)
Definition return_failure (tokens : list Token) (index : Z)
           (r : ErrorRecord) : Prop :=
  let '(e, j) := r in
  (j = index /\ error_of "expected return keyword" j tokens GOT e)
  \/ (j = index + 1 /\ error_of "expected number" j tokens GOT e)
  \/ (j = index + 2 /\ error_of "expected semicolon" j tokens AFTER e).

(** What a run of [expect_return], and so of [expect_statement], started
    at [index] ends with. *)
Definition return_post (tokens : list Token) (index : Z)
           (o : outcome (option Node * Z)) (ex : list ErrorRecord) : Prop :=
  match o with
  | Returned (Some node, index') =>
      ex = [] /\ index' = index + 3 /\ index' <= len tokens
      /\ exists r n s,
          Py.getitem tokens index = Some r /\ kind r = return_kw
          /\ Py.getitem tokens (index + 1) = Some n /\ kind n = number
          /\ Py.getitem tokens (index + 2) = Some s /\ kind s = semicolon
          /\ node = ReturnNode (NumberNode n)
  | Returned (None, index') =>
      index' = 0 /\ - len tokens <= index
      /\ exists r, ex = [r] /\ return_failure tokens index r
  | Raised e =>
      e = IndexError /\ ex = []
      /\ (index < - len tokens
          \/ exists r, Py.getitem tokens index = Some r /\ kind r = return_kw
                       /\ len tokens = index + 1)
  end.

(** The condition of the specification: enough tokens, and the kinds of
    the first ones equal the expected kinds, position by position. *)
Definition kinds_match (tokens : list Token) (kinds_expected : list TokenKind)
  : Prop :=
  (List.length kinds_expected <= List.length tokens)%nat
  /\ forall i k, nth_error kinds_expected i = Some k ->
                 exists t, nth_error tokens i = Some t /\ kind t = k.

(** [runs_with n m p Q]: as [runs], for every loop budget above [n], with
    one and the same outcome. *)
Definition runs_with {A : Type} (n : nat) (m : nat -> M A) (p : Parser)
           (Q : outcome A -> list ErrorRecord -> Prop) : Prop :=
  exists o extra,
    (forall fuel, (n < fuel)%nat -> m fuel p = Some (o, extend p extra))
    /\ Q o extra.

(** The token sequence stops right after a [return] keyword. *)
Definition ends_with_return (tokens : list Token) : Prop :=
  exists r, Py.getitem tokens (len tokens - 1) = Some r /\ kind r = return_kw.

(** What a run of the statement loop started at [index] with the nodes
    [nodes] ends with. *)
Definition loop_post (tokens : list Token) (index : Z) (nodes : list Node)
           (o : outcome (list Node * Z)) (ex : list ErrorRecord) : Prop :=
  match o with
  | Returned (nodes', index') =>
      (index' = index \/ index < index' <= len tokens)
      /\ - len tokens <= index'
      /\ (exists more, nodes' = nodes ++ more /\ index' = index + 3 * len more)
      /\ exists r, ex = [r] /\ return_failure tokens index' r
  | Raised e =>
      e = IndexError /\ ex = []
      /\ (index < - len tokens \/ ends_with_return tokens)
  end.

(** The kinds [expect_main] asks for first: [int main ( ) {]. *)
Definition kinds_before : list TokenKind :=
  [int_kw; main; open_paren; close_paren; open_brack].

(** The records a failing program-entry matcher leaves. *)
Definition main_failure (tokens : list Token) (index : Z)
           (ex : list ErrorRecord) : Prop :=
  (exists e, ex = [(e, index)]
             /\ error_of "expected main function starting" index tokens AT e
             /\ ~ kinds_match (Py.slice_from tokens index) kinds_before)
  \/ (exists r e j, ex = [r; (e, j)]
                    /\ return_failure tokens j r
                    /\ error_of "expected closing brace" j tokens GOT e
                    /\ index + 5 <= j).

(** What a run of [expect_main] started at [index] ends with. *)
Definition main_post (tokens : list Token) (index : Z)
           (o : outcome (option Node * Z)) (ex : list ErrorRecord) : Prop :=
  match o with
  | Returned (Some node, index') =>
      index + 6 <= index' <= len tokens
      /\ (exists nodes, node = MainNode nodes
                        /\ index' = index + 5 + 3 * len nodes + 1)
      /\ exists r, ex = [r]
  | Returned (None, index') => index' = 0 /\ main_failure tokens index ex
  | Raised e =>
      e = IndexError /\ ex = []
      /\ (index + 5 < - len tokens \/ ends_with_return tokens)
  end.

(** What a run of [parse] started in state [p] ends with. *)
Definition parse_post (tokens : list Token) (p : Parser)
           (o : outcome Node) (ex : list ErrorRecord) : Prop :=
  match o with
  | Returned node =>
      (exists nodes, node = MainNode nodes /\ len tokens = 6 + 3 * len nodes)
      /\ exists r, ex = [r]
  | Raised (SyntaxError e) =>
      (main_failure tokens 0 ex
       /\ exists j, last_greatest snd (errors p ++ ex) (e, j))
      \/ (exists index t,
            6 <= index < len tokens /\ Py.getitem tokens index = Some t
            /\ e = error_at ("unexpected token at '" ++ content t ++ "'") t
            /\ exists r, ex = [r])
  | Raised IndexError => ex = [] /\ ends_with_return tokens
  | Raised (ValueError _) => False
  end.

(** The claim as the specification words it: the match succeeds, that is,
    the value returned is true in a condition, exactly when the kinds
    match; then the value is the number of expected kinds; otherwise it is
    false in a condition and zero as a number. *)
Definition match_tokens_as_specified (tokens : list Token)
           (kinds_expected : list TokenKind) : Prop :=
  (Py.truthy (match_tokens tokens kinds_expected) = true
   <-> kinds_match tokens kinds_expected)
  /\ (kinds_match tokens kinds_expected ->
      match_tokens tokens kinds_expected = Py.Int (len kinds_expected)
      /\ Py.truthy (match_tokens tokens kinds_expected) = true)
  /\ (~ kinds_match tokens kinds_expected ->
      Py.truthy (match_tokens tokens kinds_expected) = false
      /\ Py.int_of (match_tokens tokens kinds_expected) = 0).

(** A statement of the grammar: a [return] token, a number, a semicolon. *)
Definition Statement : Type := Token * Token * Token.

Definition statement_tokens (s : Statement) : list Token :=
  let '(r, n, sc) := s in [r; n; sc].

Definition statement_node (s : Statement) : Node :=
  let '(r, n, sc) := s in ReturnNode (NumberNode n).

Definition statement_kinds (s : Statement) : Prop :=
  let '(r, n, sc) := s in
  kind r = return_kw /\ kind n = number /\ kind sc = semicolon.

(** The tokens of [int main ( ) {], of the statements, and of [}]. *)
Definition program_tokens (head : list Token) (body : list Statement)
           (closing : Token) : list Token :=
  head ++ flat_map statement_tokens body ++ [closing].

(** A call of a method of the parser other than [__init__]. *)
Inductive call : Type :=
| call_parse (tokens : list Token)
| call_expect_main (fuel : nat) (tokens : list Token) (index : Z)
| call_expect_statement (tokens : list Token) (index : Z)
| call_expect_return (tokens : list Token) (index : Z)
| call_expect_expression (tokens : list Token) (index : Z)
| call_match_tokens (tokens : list Token) (kinds_expected : list TokenKind)
| call_add_error (message : string) (index : Z) (tokens : list Token)
                 (message_type : Z)
| call_make_error (message : string) (index : Z) (tokens : list Token)
                  (message_type : Z).

(** The state of the parser object after a call, whether the call
    returned or raised; [None] if its loop budget was used up. *)
Definition state_after (c : call) (p : Parser) : option Parser :=
  match c with
  | call_parse tokens => option_map snd (parse tokens p)
  | call_expect_main fuel tokens index =>
      option_map snd (expect_main fuel tokens index p)
  | call_expect_statement tokens index =>
      option_map snd (expect_statement tokens index p)
  | call_expect_return tokens index =>
      option_map snd (expect_return tokens index p)
  | call_expect_expression tokens index =>
      option_map snd (expect_expression tokens index p)
  | call_match_tokens tokens kinds_expected =>
      let _ := match_tokens tokens kinds_expected in Some p
  | call_add_error message index tokens message_type =>
      option_map snd (add_error message index tokens message_type p)
  | call_make_error message index tokens message_type =>
      option_map snd (make_error message index tokens message_type p)
  end.

(** The state after a sequence of calls on one parser object. *)
Fixpoint state_after_calls (cs : list call) (p : Parser) : option Parser :=
  match cs with
  | [] => Some p
  | c :: cs' =>
      match state_after c p with
      | Some p' => state_after_calls cs' p'
      | None => None
      end
  end.

(** The token sequence [extra], and the error a fresh parser raises on it. *)
Definition tokens_only_extra : list Token := [tk (other_kind 0) "extra"].

Definition expected_main_error : CompilerError :=
  error_at "expected main function starting at 'extra'" (tk (other_kind 0) "extra").

(** The error [e] quotes a token of [tokens], in one of the three
    phrasings, and carries the file and line of the token it quotes. *)
Definition located (tokens : list Token) (e : CompilerError) : Prop :=
  exists t message,
    In t tokens
    /\ (e = mkCompilerError (message ++ " at '" ++ content t ++ "'")
                            (Some (file_name t)) (Some (line_num t))
        \/ e = mkCompilerError (message ++ ", got '" ++ content t ++ "'")
                               (Some (file_name t)) (Some (line_num t))
        \/ e = mkCompilerError (message ++ " after '" ++ content t ++ "'")
                               (Some (file_name t)) (Some (line_num t))).

(** What a statement-level matcher started at [index] in state [p] does to
    the log: nothing when it succeeds or raises, one record at an index
    from [index] to [index + 2] when it fails. *)
Definition one_record_on_failure (index : Z) (p : Parser)
           (o : outcome (option Node * Z)) (p' : Parser) : Prop :=
  match o with
  | Returned (Some _, _) => p' = p
  | Returned (None, index') =>
      index' = 0
      /\ exists e j, errors p' = errors p ++ [(e, j)] /\ index <= j <= index + 2
  | Raised e => e = IndexError /\ p' = p
  end.

(** ** Subscripts and slices *)

#[local] Arguments Z.add : simpl never.
#[local] Arguments Z.mul : simpl never.
#[local] Arguments Z.sub : simpl never.

Section Subscripts.
Context {A : Type}.
Implicit Types (l : list A) (i : Z).

Lemma len_app l1 l2 : len (l1 ++ l2) = len l1 + len l2.
Proof. unfold len. rewrite length_app. lia. Qed.

Lemma len_cons (x : A) l : len (x :: l) = 1 + len l.
Proof. unfold len. cbn [List.length]. lia. Qed.

Lemma len_nonneg l : 0 <= len l.
Proof. unfold len. lia. Qed.

Lemma nth_error_here l1 (x : A) l2 :
  nth_error (l1 ++ x :: l2) (List.length l1) = Some x.
Proof. induction l1 as [|a l1 IH]; [reflexivity | exact IH]. Qed.

Lemma getitem_nonneg l i :
  0 <= i -> Py.getitem l i = nth_error l (Z.to_nat i).
Proof.
  intros Hi. unfold Py.getitem.
  destruct (Z.leb_spec 0 i); [reflexivity | lia].
Qed.

Lemma getitem_past_end l i : len l <= i -> Py.getitem l i = None.
Proof.
  intros Hi. pose proof (len_nonneg l).
  rewrite getitem_nonneg by lia.
  apply nth_error_None. unfold len in *. lia.
Qed.

Lemma getitem_in_range l i :
  0 <= i < len l -> exists a, Py.getitem l i = Some a.
Proof.
  intros Hi. rewrite getitem_nonneg by lia.
  destruct (nth_error l (Z.to_nat i)) eqn:E; [eauto|].
  apply nth_error_None in E. unfold len in *. lia.
Qed.

Lemma getitem_Some_bound l i a :
  Py.getitem l i = Some a -> - len l <= i < len l.
Proof.
  unfold Py.getitem. fold (len l). intros H.
  destruct (Z.leb_spec 0 i).
  - assert (nth_error l (Z.to_nat i) <> None) as Hn by congruence.
    apply nth_error_Some in Hn. unfold len. lia.
  - destruct (Z.leb_spec (- len l) i); [lia | discriminate].
Qed.

Lemma getitem_middle l1 (x : A) l2 i :
  i = len l1 -> Py.getitem (l1 ++ x :: l2) i = Some x.
Proof.
  intros ->. rewrite getitem_nonneg by apply len_nonneg.
  unfold len. rewrite Nat2Z.id. apply nth_error_here.
Qed.

Lemma getitem_last l (x : A) : Py.getitem (l ++ [x]) (-1) = Some x.
Proof.
  unfold Py.getitem. rewrite length_app. cbn [List.length].
  destruct (Z.leb_spec 0 (-1)); [lia|].
  destruct (Z.leb_spec (- Z.of_nat (List.length l + 1)) (-1)); [|lia].
  replace (Z.to_nat (Z.of_nat (List.length l + 1) + -1))
    with (List.length l) by lia.
  apply nth_error_here.
Qed.

Lemma slice_from_nil_iff l i :
  0 <= i -> (Py.slice_from l i = [] <-> len l <= i).
Proof.
  intros Hi. unfold Py.slice_from.
  destruct (Z.leb_spec 0 i); [|lia].
  pose proof (length_skipn (Z.to_nat i) l) as Hs.
  split; intros Hnil.
  - rewrite Hnil in Hs. cbn in Hs. unfold len. lia.
  - apply length_zero_iff_nil. unfold len in Hnil. lia.
Qed.

End Subscripts.

(** ** The element [sorted(l, key)[-1]] *)

Section Sorted.
Context {A : Type} (key : A -> Z).

Lemma insert_by_In (x y : A) (s : list A) :
  In y (Py.insert_by key x s) <-> y = x \/ In y s.
Proof.
  induction s as [|z s IH]; cbn.
  - intuition congruence.
  - destruct (key x <=? key z); cbn; [intuition congruence|].
    rewrite IH. intuition congruence.
Qed.

Lemma sorted_In (y : A) (l : list A) : In y (Py.sorted key l) <-> In y l.
Proof.
  induction l as [|x l IH]; cbn; [tauto|].
  rewrite insert_by_In, IH. intuition congruence.
Qed.

(** Inserting keeps the last element, unless every key is smaller. *)
Lemma insert_by_end (x : A) (s : list A) :
  (Py.insert_by key x s = s ++ [x] /\ forall y, In y s -> key y < key x)
  \/ (exists s0 s' z y,
        s = s0 ++ [z] /\ Py.insert_by key x s = s' ++ [z]
        /\ In y s /\ key x <= key y).
Proof.
  induction s as [|a s IH].
  - left. split; [reflexivity | intros y []].
  - cbn [Py.insert_by]. destruct (Z.leb_spec (key x) (key a)) as [Hle|Hgt].
    + right.
      destruct (exists_last (l := a :: s)) as (s0 & z & E); [discriminate|].
      exists s0, (x :: s0), z, a. rewrite E.
      split; [reflexivity|]. split; [reflexivity|].
      split; [rewrite <- E; now left | assumption].
    + destruct IH as [[E Hall] | (s0 & s' & z & y & Es & E & Hy & Hk)].
      * left. rewrite E. split; [reflexivity|].
        intros y [<-|Hy]; [lia | auto].
      * right. exists (a :: s0), (a :: s'), z, y. rewrite E.
        split; [rewrite Es; reflexivity|]. split; [reflexivity|].
        split; [now right | assumption].
Qed.

Lemma sorted_last (l : list A) :
  l <> [] ->
  exists x, Py.getitem (Py.sorted key l) (-1) = Some x /\ last_greatest key l x.
Proof.
  induction l as [|a l IH]; [congruence | intros _].
  cbn [Py.sorted].
  destruct (insert_by_end a (Py.sorted key l))
    as [[E Hall] | (s0 & s' & z & y & Es & E & Hy & Hk)].
  - exists a. rewrite E, getitem_last. split; [reflexivity|].
    exists [], l. split; [reflexivity|]. split; [intros y []|].
    intros y Hy. apply Hall, sorted_In, Hy.
  - assert (l <> []) as Hl.
    { intros ->. destruct Hy. }
    destruct (IH Hl) as (x & Hx & before & after & El & Hb & Ha).
    rewrite Es, getitem_last in Hx. injection Hx as ->.
    exists x. rewrite E, getitem_last. split; [reflexivity|].
    exists (a :: before), after. rewrite El. split; [reflexivity|].
    split; [|exact Ha].
    intros w [<-|Hw]; [|auto].
    apply (proj1 (sorted_In _ _)) in Hy. rewrite El in Hy.
    apply in_app_or in Hy. destruct Hy as [Hy | [<- | Hy]].
    + specialize (Hb _ Hy). lia.
    + assumption.
    + specialize (Ha _ Hy). lia.
Qed.

End Sorted.

(** ** Reasoning about method runs *)

Lemma extend_nil p : extend p [] = p.
Proof. destruct p as [l]. unfold extend. cbn. now rewrite app_nil_r. Qed.

Lemma extend_extend p ex1 ex2 : extend (extend p ex1) ex2 = extend p (ex1 ++ ex2).
Proof. unfold extend. cbn. now rewrite app_assoc. Qed.

Lemma extend_inj p ex1 ex2 : extend p ex1 = extend p ex2 -> ex1 = ex2.
Proof. unfold extend. intros H. injection H as H. eapply app_inv_head, H. Qed.

Section Runs.
Context {A B : Type}.

Lemma runs_ret (a : A) p (Q : outcome A -> list ErrorRecord -> Prop) :
  Q (Returned a) [] -> runs (ret a) p Q.
Proof. intros HQ. exists (Returned a), []. now rewrite extend_nil. Qed.

Lemma runs_raise e p (Q : outcome A -> list ErrorRecord -> Prop) :
  Q (Raised e) [] -> runs (raise e) p Q.
Proof. intros HQ. exists (Raised e), []. now rewrite extend_nil. Qed.

Lemma runs_bind (m : M A) (f : A -> M B) p
      (Q : outcome B -> list ErrorRecord -> Prop) :
  runs m p (fun o ex =>
              match o with
              | Returned a =>
                  runs (f a) (extend p ex) (fun o' ex' => Q o' (ex ++ ex'))
              | Raised e => Q (Raised e) ex
              end) ->
  runs (bind m f) p Q.
Proof.
  intros (o & ex & Hm & HQ). unfold runs, bind. rewrite Hm.
  destruct o as [a|e].
  - destruct HQ as (o' & ex' & Hf & HQ).
    exists o', (ex ++ ex'). now rewrite Hf, extend_extend.
  - now exists (Raised e), ex.
Qed.

Lemma runs_weaken (m : M A) p (Q Q' : outcome A -> list ErrorRecord -> Prop) :
  runs m p Q -> (forall o ex, Q o ex -> Q' o ex) -> runs m p Q'.
Proof. intros (o & ex & Hm & HQ) HQQ. exists o, ex. auto. Qed.

Lemma runs_inv (m : M A) p (Q : outcome A -> list ErrorRecord -> Prop) o p' :
  runs m p Q -> m p = Some (o, p') ->
  exists ex, p' = extend p ex /\ Q o ex.
Proof.
  intros (o1 & ex & Hm & HQ) E. rewrite Hm in E.
  injection E as <- <-. eauto.
Qed.

Lemma runs_subscript (l : list A) i p
      (Q : outcome A -> list ErrorRecord -> Prop) :
  match Py.getitem l i with
  | Some a => Q (Returned a) []
  | None => Q (Raised IndexError) []
  end ->
  runs (subscript l i) p Q.
Proof.
  unfold subscript. destruct (Py.getitem l i).
  - apply runs_ret.
  - apply runs_raise.
Qed.

End Runs.

Lemma runs_append r p (Q : outcome unit -> list ErrorRecord -> Prop) :
  Q (Returned tt) [r] -> runs (append_error r) p Q.
Proof. intros HQ. now exists (Returned tt), [r]. Qed.

Lemma kind_eqb_true a b : kind_eqb a b = true <-> a = b.
Proof. unfold kind_eqb. destruct (TokenKind_eq_dec a b); intuition congruence. Qed.

Lemma kind_eqb_refl a : kind_eqb a a = true.
Proof. now apply kind_eqb_true. Qed.

Lemma runs_kind_test tokens index k p
      (Q : outcome bool -> list ErrorRecord -> Prop) :
  match Py.getitem tokens index with
  | Some t => Q (Returned (kind_eqb (kind t) k)) []
  | None => if len tokens >? index then Q (Raised IndexError) []
            else Q (Returned false) []
  end ->
  runs (kind_test tokens index k) p Q.
Proof.
  unfold kind_test. intros HQ.
  destruct (Py.getitem tokens index) as [t|] eqn:E.
  - apply getitem_Some_bound in E as Hb.
    destruct (Z.gtb_spec (len tokens) index); [|lia].
    apply runs_bind, runs_subscript. rewrite E. now apply runs_ret.
  - destruct (len tokens >? index).
    + apply runs_bind, runs_subscript. now rewrite E.
    + now apply runs_ret.
Qed.

(** ** [make_error] case by case *)

Section MakeError.
Variables (message : string) (tokens : list Token) (p : Parser).

Lemma make_error_empty index message_type :
  tokens = [] ->
  make_error message index tokens message_type p
  = Some (Returned (mkCompilerError (message ++ " at beginning of source")
                                    None None), p).
Proof. intros ->. reflexivity. Qed.

Lemma make_error_past_end index message_type t :
  len tokens <= index ->
  Py.getitem tokens (len tokens - 1) = Some t ->
  make_error message index tokens message_type p
  = Some (Returned (error_at (message ++ " after '" ++ content t ++ "'") t), p).
Proof.
  intros Hi Ht. unfold make_error.
  apply getitem_Some_bound in Ht as Hb.
  destruct (Z.eqb_spec (len tokens) 0); [lia|].
  destruct (Z.geb_spec index (len tokens)); [|lia].
  cbn. unfold bind, subscript. now rewrite Ht.
Qed.

Lemma make_error_at_start index t :
  index <= 0 ->
  Py.getitem tokens 0 = Some t ->
  make_error message index tokens AT p
  = Some (Returned (error_at (message ++ " at '" ++ content t ++ "'") t), p)
  /\ make_error message index tokens GOT p
     = Some (Returned (error_at (message ++ ", got '" ++ content t ++ "'") t), p)
  /\ make_error message index tokens AFTER p
     = Some (Returned (error_at (message ++ ", got '" ++ content t ++ "'") t), p).
Proof.
  intros Hi Ht. unfold make_error.
  apply getitem_Some_bound in Ht as Hb.
  destruct (Z.eqb_spec (len tokens) 0); [lia|].
  destruct (Z.geb_spec index (len tokens)); [lia|].
  destruct (Z.leb_spec index 0); [|lia].
  cbn. unfold bind, subscript. now rewrite Ht.
Qed.

Lemma make_error_inside index t prev :
  0 < index ->
  Py.getitem tokens index = Some t ->
  Py.getitem tokens (index - 1) = Some prev ->
  make_error message index tokens AT p
  = Some (Returned (error_at (message ++ " at '" ++ content t ++ "'") t), p)
  /\ make_error message index tokens GOT p
     = Some (Returned (error_at (message ++ ", got '" ++ content t ++ "'") t), p)
  /\ make_error message index tokens AFTER p
     = Some (Returned (error_at (message ++ " after '" ++ content prev ++ "'")
                                prev), p).
Proof.
  intros Hi Ht Hprev. unfold make_error.
  apply getitem_Some_bound in Ht as Hb.
  destruct (Z.eqb_spec (len tokens) 0); [lia|].
  destruct (Z.geb_spec index (len tokens)); [lia|].
  destruct (Z.leb_spec index 0); [lia|].
  cbn. unfold bind, subscript. now rewrite Ht, Hprev.
Qed.

(** With one of the three styles, [make_error] returns an error and
    leaves the state alone. *)
Lemma make_error_returns index message_type :
  message_type = AT \/ message_type = GOT \/ message_type = AFTER ->
  exists e, forall q,
    make_error message index tokens message_type q = Some (Returned e, q).
Proof.
  clear p. intros Hmt.
  destruct tokens as [|t0 ts] eqn:Etok.
  { eexists. intros q. reflexivity. }
  rewrite <- Etok.
  assert (0 < len tokens) as Hlen by (subst; rewrite len_cons; pose proof (len_nonneg ts); lia).
  destruct (Z.le_gt_cases (len tokens) index) as [Hge|Hlt].
  - destruct (getitem_in_range tokens (len tokens - 1)) as [t Ht]; [lia|].
    eexists. intros q. revert Hge Ht. clear. intros.
    unfold make_error.
    apply getitem_Some_bound in Ht as Hb.
    destruct (Z.eqb_spec (len tokens) 0); [lia|].
    destruct (Z.geb_spec index (len tokens)); [|lia].
    cbn. unfold bind, subscript. rewrite Ht. reflexivity.
  - destruct (Z.le_gt_cases index 0) as [Hle|Hpos].
    + destruct (getitem_in_range tokens 0) as [t Ht]; [lia|].
      assert (exists e, forall q,
                 make_error message index tokens message_type q
                 = Some (Returned e, q)) as H; [|exact H].
      unfold make_error.
      destruct (Z.eqb_spec (len tokens) 0); [lia|].
      destruct (Z.geb_spec index (len tokens)); [lia|].
      destruct (Z.leb_spec index 0); [|lia].
      destruct Hmt as [-> | [-> | ->]]; cbn; unfold bind, subscript;
        rewrite Ht; eexists; intros q; reflexivity.
    + destruct (getitem_in_range tokens index) as [t Ht]; [lia|].
      destruct (getitem_in_range tokens (index - 1)) as [t' Ht']; [lia|].
      unfold make_error.
      destruct (Z.eqb_spec (len tokens) 0); [lia|].
      destruct (Z.geb_spec index (len tokens)); [lia|].
      destruct (Z.leb_spec index 0); [lia|].
      destruct Hmt as [-> | [-> | ->]]; cbn; unfold bind, subscript;
        rewrite ?Ht, ?Ht'; eexists; intros q; reflexivity.
Qed.

End MakeError.

(** ** What each matcher does *)

(** After a step that recorded nothing. *)
Ltac pure_step := cbn [app]; rewrite ?extend_nil.

Lemma runs_add_error message index tokens message_type p
      (Q : outcome (option Node * Z) -> list ErrorRecord -> Prop) :
  valid_style message_type ->
  (forall e, error_of message index tokens message_type e ->
             Q (Returned (None, 0)) [(e, index)]) ->
  runs (add_error message index tokens message_type) p Q.
Proof.
  intros Hmt HQ.
  destruct (make_error_returns message tokens index message_type Hmt) as [e He].
  exists (Returned (None, 0)), [(e, index)]. split; [|auto].
  unfold add_error, bind. now rewrite He.
Qed.

Lemma expect_expression_runs tokens index p :
  runs (expect_expression tokens index) p (expression_post tokens index).
Proof.
  unfold expect_expression. apply runs_bind, runs_subscript.
  destruct (Py.getitem tokens index) as [t|] eqn:Et; [|now cbn].
  pure_step.
  destruct (kind_eqb (kind t) number) eqn:Ek.
  - apply runs_ret. cbn. apply kind_eqb_true in Ek. eauto 6.
  - apply runs_add_error; [right; now left|].
    intros e He. cbn. split; [reflexivity|]. exists t, e.
    repeat split; auto. intros Hk. apply kind_eqb_true in Hk. congruence.
Qed.

Lemma expect_return_runs tokens index p :
  runs (expect_return tokens index) p (return_post tokens index).
Proof.
  unfold expect_return.
  change (if len tokens >? index
          then t <- subscript tokens index;; ret (kind_eqb (kind t) return_kw)
          else ret false)
    with (kind_test tokens index return_kw).
  apply runs_bind, runs_kind_test.
  destruct (Py.getitem tokens index) as [r|] eqn:Er.
  - pure_step.
    destruct (kind_eqb (kind r) return_kw) eqn:Ek.
    + apply kind_eqb_true in Ek. apply getitem_Some_bound in Er as Hr.
      apply runs_bind.
      eapply runs_weaken; [apply expect_expression_runs|].
      intros [[[node|] i']|e] ex; cbn.
      * intros (-> & -> & n & En & Hn & ->). rewrite extend_nil.
        change (if len tokens >? index + 1 + 1
                then t <- subscript tokens (index + 1 + 1);;
                     ret (kind_eqb (kind t) semicolon)
                else ret false)
          with (kind_test tokens (index + 1 + 1) semicolon).
        apply runs_bind, runs_kind_test.
        replace (index + 1 + 1) with (index + 2) by lia.
        apply getitem_Some_bound in En as Hnb.
        destruct (Py.getitem tokens (index + 2)) as [s|] eqn:Es.
        -- pure_step.
           apply getitem_Some_bound in Es as Hsb.
           destruct (kind_eqb (kind s) semicolon) eqn:Eks.
           ++ apply runs_ret. cbn. apply kind_eqb_true in Eks.
              repeat split; [lia | lia |]. exists r, n, s. auto 10.
           ++ apply runs_add_error; [right; now right|].
              intros e He. cbn. split; [reflexivity|]. split; [lia|].
              exists (e, index + 2). split; [reflexivity|]. cbn. auto.
        -- destruct (Z.gtb_spec (len tokens) (index + 2)) as [Hgt|Hle].
           ++ exfalso. destruct (Z.le_gt_cases 0 (index + 2)).
              ** destruct (getitem_in_range tokens (index + 2)) as [? E];
                   [lia | congruence].
              ** unfold Py.getitem in Es. fold (len tokens) in Es.
                 destruct (Z.leb_spec 0 (index + 2)); [lia|].
                 destruct (Z.leb_spec (- len tokens) (index + 2)); [|lia].
                 apply nth_error_None in Es. unfold len in *. lia.
           ++ pure_step.
              apply runs_add_error; [right; now right|].
              intros e He. cbn. split; [reflexivity|]. split; [lia|].
              exists (e, index + 2). split; [reflexivity|]. cbn. auto.
      * intros (-> & t & e & Et & Hk & -> & He). apply runs_ret. cbn.
        split; [reflexivity|]. split; [lia|]. exists (e, index + 1).
        split; [reflexivity|]. cbn. auto.
      * intros (-> & -> & En). repeat split. right. exists r.
        repeat split; auto.
        destruct (Z.le_gt_cases (len tokens) (index + 1)); [lia|].
        exfalso. destruct (Z.le_gt_cases 0 (index + 1)).
        -- destruct (getitem_in_range tokens (index + 1)) as [? E];
             [lia | congruence].
        -- unfold Py.getitem in En. fold (len tokens) in En.
           destruct (Z.leb_spec 0 (index + 1)); [lia|].
           destruct (Z.leb_spec (- len tokens) (index + 1)); [|lia].
           apply nth_error_None in En. unfold len in *. lia.
    + apply getitem_Some_bound in Er as Hr.
      apply runs_add_error; [right; now left|].
      intros e He. cbn. split; [reflexivity|]. split; [lia|].
      exists (e, index). split; [reflexivity|]. cbn. auto.
  - destruct (Z.gtb_spec (len tokens) index) as [Hgt|Hle].
    + cbn. repeat split. left.
      destruct (Z.le_gt_cases 0 index).
      * destruct (getitem_in_range tokens index) as [? E]; [lia | congruence].
      * unfold Py.getitem in Er. fold (len tokens) in Er.
        destruct (Z.leb_spec 0 index); [lia|].
        destruct (Z.leb_spec (- len tokens) index); [|lia].
        apply nth_error_None in Er. unfold len in *. lia.
    + pure_step. pose proof (len_nonneg tokens).
      apply runs_add_error; [right; now left|].
      intros e He. cbn. split; [reflexivity|]. split; [lia|].
      exists (e, index). split; [reflexivity|]. cbn. auto.
Qed.

Lemma expect_statement_runs tokens index p :
  runs (expect_statement tokens index) p (return_post tokens index).
Proof.
  unfold expect_statement. apply runs_bind.
  eapply runs_weaken; [apply expect_return_runs|].
  intros [[node i']|e] ex H; [|exact H].
  apply runs_ret. now rewrite app_nil_r.
Qed.

(** ** The token-sequence matcher *)

Lemma forallb_combine_kinds kinds : forall tokens,
  (List.length kinds <= List.length tokens)%nat ->
  forallb (fun '(k, token) => kind_eqb k (kind token)) (combine kinds tokens)
  = true
  <-> forall i k, nth_error kinds i = Some k ->
                  exists t, nth_error tokens i = Some t /\ kind t = k.
Proof.
  induction kinds as [|k0 kinds IH]; intros [|t0 tokens] Hlen; cbn in Hlen.
  - split; [intros _ [|i] k; discriminate | reflexivity].
  - split; [intros _ [|i] k; discriminate | reflexivity].
  - lia.
  - cbn [combine forallb]. rewrite andb_true_iff, kind_eqb_true, IH by lia.
    split.
    + intros [E0 H] [|i] k Hk; cbn in *.
      * injection Hk as <-. eauto.
      * auto.
    + intros H. split.
      * destruct (H 0%nat k0 eq_refl) as (t & Et & Hk). cbn in Et. congruence.
      * intros i k Hk. apply (H (S i) k Hk).
Qed.

Lemma match_tokens_match tokens kinds :
  kinds_match tokens kinds -> match_tokens tokens kinds = Py.Int (len kinds).
Proof.
  intros [Hlen Hk]. unfold match_tokens.
  destruct (Z.ltb_spec (len tokens) (len kinds)); [unfold len in *; lia|].
  apply forallb_combine_kinds in Hk; [|assumption]. now rewrite Hk.
Qed.

Lemma match_tokens_mismatch tokens kinds :
  ~ kinds_match tokens kinds ->
  match_tokens tokens kinds = Py.Bool false
  \/ match_tokens tokens kinds = Py.Int 0.
Proof.
  intros Hno. unfold match_tokens.
  destruct (Z.ltb_spec (len tokens) (len kinds)); [now left|].
  destruct (forallb _ _) eqn:E; [|now right].
  exfalso. apply Hno. unfold len in *.
  split; [lia|]. apply forallb_combine_kinds; [lia | assumption].
Qed.

Lemma kinds_match_dec tokens kinds :
  kinds_match tokens kinds \/ ~ kinds_match tokens kinds.
Proof.
  destruct (le_dec (List.length kinds) (List.length tokens)) as [Hlen|Hlen].
  - destruct (forallb (fun '(k, token) => kind_eqb k (kind token))
                      (combine kinds tokens)) eqn:E.
    + left. split; [assumption|]. now apply forallb_combine_kinds.
    + right. intros [_ H]. apply forallb_combine_kinds in H; congruence.
  - right. intros [H _]. contradiction.
Qed.

Lemma match_tokens_truthy tokens kinds :
  Py.truthy (match_tokens tokens kinds) = true ->
  kinds_match tokens kinds /\ kinds <> []
  /\ Py.int_of (match_tokens tokens kinds) = len kinds.
Proof.
  intros Ht. destruct (kinds_match_dec tokens kinds) as [Hm|Hno].
  - rewrite (match_tokens_match _ _ Hm) in *. cbn in *.
    split; [assumption|]. split; [|reflexivity]. intros ->. discriminate.
  - destruct (match_tokens_mismatch _ _ Hno) as [E|E]; rewrite E in Ht;
      discriminate.
Qed.

Lemma slice_from_room {A : Type} (l : list A) (i k : Z) :
  0 < k -> k <= len (Py.slice_from l i) -> i + k <= len l /\ i + k <= Z.max i (len l).
Proof.
  unfold Py.slice_from, len. intros Hk.
  destruct (Z.leb_spec 0 i); rewrite length_skipn; lia.
Qed.

(** ** The statement loop and the program-entry matcher *)

Lemma statement_loop_runs tokens : forall n index nodes p,
  (Z.to_nat (len tokens - index) <= n)%nat ->
  runs_with n (fun fuel => statement_loop fuel tokens index nodes) p
            (loop_post tokens index nodes).
Proof.
  induction n as [|n IH]; intros index nodes p Hn;
    destruct (expect_statement_runs tokens index p)
      as ([[[node|] i']|e] & ex & E & Hpost); cbn in Hpost.
  - lia.
  - destruct Hpost as (-> & Hlow & r & -> & Hr).
    exists (Returned (nodes, index)), [r]. split.
    + intros [|fuel] Hf; [lia|]. cbn [statement_loop]. unfold bind.
      now rewrite E.
    + cbn. split; [now left|]. split; [assumption|]. split; [|eauto].
      exists []. rewrite app_nil_r. split; [reflexivity | cbn; lia].
  - destruct Hpost as (-> & -> & Hwhy).
    exists (Raised IndexError), []. split.
    + intros [|fuel] Hf; [lia|]. cbn [statement_loop]. unfold bind.
      now rewrite E.
    + cbn. repeat split. destruct Hwhy as [Hlow|(r & Er & Hk & Hl)]; [now left|].
      right. exists r. split; [|assumption]. rewrite Hl.
      now replace (index + 1 - 1) with index by lia.
  - destruct Hpost as (-> & -> & Hle & Hle0). rewrite extend_nil in E.
    destruct (IH (index + 3) (nodes ++ [node]) p) as (o & ex & Hrun & Hpost);
      [lia|].
    exists o, ex. split.
    + intros [|fuel] Hf; [lia|]. cbn [statement_loop]. unfold bind.
      rewrite E. apply Hrun. lia.
    + destruct o as [[nodes' i']|e]; unfold loop_post in *.
      2:{ destruct Hpost as (-> & -> & [Hlow|Hend]); repeat split; auto.
          exfalso. destruct Hle0 as (r & _ & _ & Er & _).
          apply getitem_Some_bound in Er. lia. }
      destruct Hpost as (Hi & Hlow & (more & -> & ->) & Hex).
      split; [right; pose proof (len_nonneg more); lia|].
      split; [assumption|]. split; [|assumption].
      exists (node :: more). rewrite <- app_assoc. split; [reflexivity|].
      rewrite len_cons. lia.
  - destruct Hpost as (-> & Hlow & r & -> & Hr).
    exists (Returned (nodes, index)), [r]. split.
    + intros [|fuel] Hf; [lia|]. cbn [statement_loop]. unfold bind.
      now rewrite E.
    + cbn. split; [now left|]. split; [assumption|]. split; [|eauto].
      exists []. rewrite app_nil_r. split; [reflexivity | cbn; lia].
  - destruct Hpost as (-> & -> & Hwhy).
    exists (Raised IndexError), []. split.
    + intros [|fuel] Hf; [lia|]. cbn [statement_loop]. unfold bind.
      now rewrite E.
    + cbn. repeat split. destruct Hwhy as [Hlow|(r & Er & Hk & Hl)]; [now left|].
      right. exists r. split; [|assumption]. rewrite Hl.
      now replace (index + 1 - 1) with index by lia.
Qed.

Lemma runs_with_bind {A B : Type} n (m : nat -> M A) (f : A -> M B) p
      (Q : outcome B -> list ErrorRecord -> Prop) :
  runs_with n m p (fun o ex =>
                     match o with
                     | Returned a =>
                         runs (f a) (extend p ex) (fun o' ex' => Q o' (ex ++ ex'))
                     | Raised e => Q (Raised e) ex
                     end) ->
  runs_with n (fun fuel => bind (m fuel) f) p Q.
Proof.
  intros (o & ex & Hm & HQ). destruct o as [a|e].
  - destruct HQ as (o' & ex' & Hf & HQ).
    exists o', (ex ++ ex'). split; [|assumption].
    intros fuel Hfuel. unfold bind. now rewrite (Hm fuel Hfuel), Hf, extend_extend.
  - exists (Raised e), ex. split; [|assumption].
    intros fuel Hfuel. unfold bind. now rewrite (Hm fuel Hfuel).
Qed.

Lemma runs_with_const {A : Type} n (m : M A) p
      (Q : outcome A -> list ErrorRecord -> Prop) :
  runs m p Q -> runs_with n (fun _ => m) p Q.
Proof. intros (o & ex & Hm & HQ). exists o, ex. auto. Qed.

Lemma runs_with_weaken {A : Type} n (m : nat -> M A) p
      (Q Q' : outcome A -> list ErrorRecord -> Prop) :
  runs_with n m p Q -> (forall o ex, Q o ex -> Q' o ex) -> runs_with n m p Q'.
Proof. intros (o & ex & Hm & HQ) HQQ. exists o, ex. auto. Qed.

Lemma expect_main_runs tokens n index p :
  (Z.to_nat (len tokens - index) <= n)%nat ->
  runs_with n (fun fuel => expect_main fuel tokens index) p
            (main_post tokens index).
Proof.
  intros Hn. unfold expect_main. fold kinds_before.
  destruct (Py.truthy (match_tokens (Py.slice_from tokens index) kinds_before))
    eqn:Et.
  - apply match_tokens_truthy in Et as ([Hlen Hk] & _ & ->).
    change (len kinds_before) with 5.
    destruct (slice_from_room tokens index 5) as [Hroom _];
      [lia | unfold len; cbn in Hlen; lia |].
    apply runs_with_bind.
    eapply runs_with_weaken; [apply statement_loop_runs; lia|].
    intros [[nodes i']|e] ex; unfold loop_post.
    + intros (Hi & Hlow & (more & -> & ->) & r & -> & Hr). cbn [app].
      pose proof (len_nonneg more) as Hmore.
      change (if len tokens >? index + 5 + 3 * len more
              then t <- subscript tokens (index + 5 + 3 * len more);;
                   ret (kind_eqb (kind t) close_brack)
              else ret false)
        with (kind_test tokens (index + 5 + 3 * len more) close_brack).
      apply runs_bind, runs_kind_test.
      destruct (Py.getitem tokens (index + 5 + 3 * len more)) as [t|] eqn:Et.
      * cbn [app]. rewrite extend_nil. apply getitem_Some_bound in Et as Hb.
        destruct (kind_eqb (kind t) close_brack).
        -- apply runs_ret. cbn [main_post app]. split; [lia|].
           split; [exists more; split; [reflexivity|lia]|eauto].
        -- apply runs_add_error; [right; now left|].
           intros e He. cbn. split; [reflexivity|]. right.
           exists r, e, (index + 5 + 3 * len more).
           repeat split; auto. lia.
      * destruct (Z.gtb_spec (len tokens) (index + 5 + 3 * len more)) as [Hgt|Hle].
        -- exfalso. destruct (Z.le_gt_cases 0 (index + 5 + 3 * len more)).
           ++ destruct (getitem_in_range tokens (index + 5 + 3 * len more))
                as [? E]; [lia | congruence].
           ++ unfold Py.getitem in Et. fold (len tokens) in Et.
              destruct (Z.leb_spec 0 (index + 5 + 3 * len more)); [lia|].
              destruct (Z.leb_spec (- len tokens) (index + 5 + 3 * len more));
                [|lia].
              apply nth_error_None in Et. unfold len in *. lia.
        -- cbn [app]. rewrite extend_nil.
           apply runs_add_error; [right; now left|].
           intros e He. cbn. split; [reflexivity|]. right.
           exists r, e, (index + 5 + 3 * len more).
           repeat split; auto. lia.
    + intros (-> & -> & Hwhy). now cbn.
  - apply runs_with_const, runs_add_error; [now left|].
    intros e He. cbn. split; [reflexivity|]. left. exists e.
    repeat split; auto. intros Hm.
    rewrite (match_tokens_match _ _ Hm) in Et. discriminate.
Qed.

(** ** The driver *)

Lemma runs_get_errors p (Q : outcome (list ErrorRecord) -> list ErrorRecord -> Prop) :
  Q (Returned (errors p)) [] -> runs get_errors p Q.
Proof. intros HQ. exists (Returned (errors p)), []. now rewrite extend_nil. Qed.

Lemma main_failure_nonempty tokens index ex :
  main_failure tokens index ex -> ex <> [].
Proof.
  intros [(e & -> & _) | (r & e & j & -> & _)]; discriminate.
Qed.

Lemma parse_fuel_runs tokens n p :
  (List.length tokens <= n)%nat ->
  runs_with n (fun fuel => parse_fuel fuel tokens) p (parse_post tokens p).
Proof.
  intros Hn. unfold parse_fuel. apply runs_with_bind.
  eapply runs_with_weaken; [apply expect_main_runs; unfold len; lia|].
  intros [[[node|] i']|e] ex; cbn [main_post].
  - intros (Hi & (nodes & -> & Hi') & r & ->).
    destruct (Py.slice_from tokens i') as [|t0 rest] eqn:Eslice.
    + apply slice_from_nil_iff in Eslice; [|lia].
      apply runs_ret. cbn. split; [|eauto]. exists nodes.
      split; [reflexivity | lia].
    + assert (i' < len tokens) as Hlt.
      { destruct (Z.lt_ge_cases i' (len tokens)) as [H|H]; [assumption|].
        apply slice_from_nil_iff in H; [congruence | lia]. }
      destruct (getitem_in_range tokens i') as [t Ht]; [lia|].
      destruct (getitem_in_range tokens (i' - 1)) as [t' Ht']; [lia|].
      destruct (make_error_inside "unexpected token" tokens
                  (extend p [r]) i' t t') as [E _]; [lia | assumption.. |].
      exists (Raised (SyntaxError
                (error_at ("unexpected token at '" ++ content t ++ "'") t))), [].
      split; [unfold bind; rewrite E; now rewrite extend_nil|].
      cbn. right. exists i', t. repeat split; eauto; lia.
  - intros (-> & Hfail).
    apply runs_bind, runs_get_errors. cbn [app]. rewrite extend_nil.
    apply runs_bind, runs_subscript.
    destruct (sorted_last snd (errors (extend p ex))) as ([e j] & -> & Hlast).
    { cbn. intros H. apply app_eq_nil in H as [_ H].
      now apply main_failure_nonempty in Hfail. }
    rewrite extend_nil. apply runs_raise. cbn. left. rewrite !app_nil_r.
    split; [assumption|]. exists j. exact Hlast.
  - intros (-> & -> & [Hlow|Hend]); cbn; [|auto].
    pose proof (len_nonneg tokens). lia.
Qed.

Lemma parse_runs tokens p : runs (parse tokens) p (parse_post tokens p).
Proof.
  destruct (parse_fuel_runs tokens (List.length tokens) p (le_n _))
    as (o & ex & Hrun & Hpost).
  exists o, ex. split; [|assumption]. apply Hrun. lia.
Qed.

(** ** More loop budget changes nothing *)

Lemma statement_loop_mono tokens : forall fuel index nodes p r,
  statement_loop fuel tokens index nodes p = Some r ->
  forall fuel', (fuel <= fuel')%nat ->
                statement_loop fuel' tokens index nodes p = Some r.
Proof.
  induction fuel as [|fuel IH]; intros index nodes p r H fuel' Hle;
    [discriminate|].
  destruct fuel' as [|fuel']; [lia|].
  cbn [statement_loop] in *. unfold bind in *.
  destruct (expect_statement tokens index p) as [[[[[node|] i']|e] q]|];
    try assumption.
  apply IH with (fuel' := fuel') in H; [assumption | lia].
Qed.

Lemma expect_main_mono tokens fuel index p r :
  expect_main fuel tokens index p = Some r ->
  forall fuel', (fuel <= fuel')%nat -> expect_main fuel' tokens index p = Some r.
Proof.
  unfold expect_main. intros H fuel' Hle.
  destruct (Py.truthy _); [|assumption].
  unfold bind at 1. unfold bind at 1 in H.
  destruct (statement_loop fuel tokens _ [] p) as [res|] eqn:E; [|discriminate].
  now rewrite (statement_loop_mono _ _ _ _ _ _ E fuel' Hle).
Qed.

Lemma parse_fuel_mono tokens fuel p r :
  parse_fuel fuel tokens p = Some r ->
  forall fuel', (fuel <= fuel')%nat -> parse_fuel fuel' tokens p = Some r.
Proof.
  unfold parse_fuel. intros H fuel' Hle.
  unfold bind at 1. unfold bind at 1 in H.
  destruct (expect_main fuel tokens 0 p) as [res|] eqn:E; [|discriminate].
  now rewrite (expect_main_mono _ _ _ _ _ E fuel' Hle).
Qed.

(** Whatever budget a run of the program-entry matcher ended with, its
    outcome is the one [expect_main_runs] describes. *)
Lemma expect_main_inv tokens fuel index p o p' :
  expect_main fuel tokens index p = Some (o, p') ->
  exists ex, p' = extend p ex /\ main_post tokens index o ex.
Proof.
  intros H.
  destruct (expect_main_runs tokens (Z.to_nat (len tokens - index)) index p
              (le_n _)) as (o1 & ex & Hrun & Hpost).
  pose (big := S (Nat.max fuel (Z.to_nat (len tokens - index)))).
  apply expect_main_mono with (fuel' := big) in H; [|lia].
  rewrite Hrun in H by lia. injection H as <- <-. eauto.
Qed.

Lemma parse_fuel_inv tokens fuel p o p' :
  parse_fuel fuel tokens p = Some (o, p') ->
  exists ex, p' = extend p ex /\ parse_post tokens p o ex.
Proof.
  intros H.
  destruct (parse_fuel_runs tokens (List.length tokens) p (le_n _))
    as (o1 & ex & Hrun & Hpost).
  pose (big := S (Nat.max fuel (List.length tokens))).
  apply parse_fuel_mono with (fuel' := big) in H; [|lia].
  rewrite Hrun in H by lia. injection H as <- <-. eauto.
Qed.

Lemma statement_loop_inv tokens fuel index nodes p o p' :
  statement_loop fuel tokens index nodes p = Some (o, p') ->
  exists ex, p' = extend p ex /\ loop_post tokens index nodes o ex.
Proof.
  intros H.
  destruct (statement_loop_runs tokens (Z.to_nat (len tokens - index)) index
              nodes p (le_n _)) as (o1 & ex & Hrun & Hpost).
  pose (big := S (Nat.max fuel (Z.to_nat (len tokens - index)))).
  apply statement_loop_mono with (fuel' := big) in H; [|lia].
  rewrite Hrun in H by lia. injection H as <- <-. eauto.
Qed.

(** * The claims *)

(** ** Error synthesis *)

(** C7. [make_error] applies its boundary rules in order, whatever the
    message, index, token list and state.  On an empty token list the
    result is "<message> at beginning of source" without file or line, for
    every style.  On a non-empty list, an index at or beyond the end gives
    the AFTER form about the last token, for every style; an index at or
    below 0 is treated as 0, so AT and GOT speak about the first token and
    AFTER is turned into GOT; any other index gives "<message> at '<text>'"
    for AT and "<message>, got '<text>'" for GOT, about the token at the
    index, and "<message> after '<text>'" for AFTER, about the token before
    it.  The error carries the file name and line of the token it quotes,
    and the state is left as it was. *)
Theorem make_error_boundary_rules
        (message : string) (index : Z) (tokens : list Token) (p : Parser) :
  (tokens = [] ->
   forall message_type,
     make_error message index tokens message_type p
     = Some (Returned (mkCompilerError (message ++ " at beginning of source")
                                       None None), p))
  /\ (forall last_token,
         len tokens <= index ->
         Py.getitem tokens (len tokens - 1) = Some last_token ->
         forall message_type,
           make_error message index tokens message_type p
           = Some (Returned
                     (mkCompilerError
                        (message ++ " after '" ++ content last_token ++ "'")
                        (Some (file_name last_token))
                        (Some (line_num last_token))), p))
  /\ (forall first_token,
         index <= 0 ->
         Py.getitem tokens 0 = Some first_token ->
         make_error message index tokens AT p
         = Some (Returned
                   (mkCompilerError
                      (message ++ " at '" ++ content first_token ++ "'")
                      (Some (file_name first_token))
                      (Some (line_num first_token))), p)
         /\ make_error message index tokens GOT p
            = Some (Returned
                      (mkCompilerError
                         (message ++ ", got '" ++ content first_token ++ "'")
                         (Some (file_name first_token))
                         (Some (line_num first_token))), p)
         /\ make_error message index tokens AFTER p
            = Some (Returned
                      (mkCompilerError
                         (message ++ ", got '" ++ content first_token ++ "'")
                         (Some (file_name first_token))
                         (Some (line_num first_token))), p))
  /\ (forall token previous,
         0 < index < len tokens ->
         Py.getitem tokens index = Some token ->
         Py.getitem tokens (index - 1) = Some previous ->
         make_error message index tokens AT p
         = Some (Returned
                   (mkCompilerError
                      (message ++ " at '" ++ content token ++ "'")
                      (Some (file_name token)) (Some (line_num token))), p)
         /\ make_error message index tokens GOT p
            = Some (Returned
                      (mkCompilerError
                         (message ++ ", got '" ++ content token ++ "'")
                         (Some (file_name token)) (Some (line_num token))), p)
         /\ make_error message index tokens AFTER p
            = Some (Returned
                      (mkCompilerError
                         (message ++ " after '" ++ content previous ++ "'")
                         (Some (file_name previous))
                         (Some (line_num previous))), p)).
Proof.
  split; [|split; [|split]].
  - intros Hnil mt. now apply make_error_empty.
  - intros t Hi Ht mt. now apply make_error_past_end.
  - intros t Hi Ht. now apply make_error_at_start.
  - intros t prev [Hi _] Ht Hprev. now apply make_error_inside.
Qed.

(** The four rules at work: on no tokens, and on the tokens of
    [int main ( ) { return 4 ; }] at the indices 9, 0 and 6. *)
Lemma make_error_boundary_rules_witness :
  make_error "expected semicolon" 3 [] GOT Parser_init
  = Some (Returned (mkCompilerError "expected semicolon at beginning of source"
                                    None None), Parser_init)
  /\ make_error "expected semicolon" 9 tokens_return_4 AT Parser_init
     = Some (Returned (mkCompilerError "expected semicolon after '}'"
                         (Some "main.c"%string) (Some 1)), Parser_init)
  /\ make_error "expected semicolon" 0 tokens_return_4 AFTER Parser_init
     = Some (Returned (mkCompilerError "expected semicolon, got 'int'"
                         (Some "main.c"%string) (Some 1)), Parser_init)
  /\ make_error "expected semicolon" 6 tokens_return_4 AFTER Parser_init
     = Some (Returned (mkCompilerError "expected semicolon after 'return'"
                         (Some "main.c"%string) (Some 1)), Parser_init).
Proof.
  split; [|split; [|split]].
  - apply (proj1 (make_error_boundary_rules "expected semicolon" 3 []
                                             Parser_init)).
    reflexivity.
  - apply (proj1 (proj2 (make_error_boundary_rules
                           "expected semicolon" 9 tokens_return_4 Parser_init))
             (tk close_brack "}")).
    + vm_compute. discriminate.
    + reflexivity.
  - apply (proj1 (proj2 (proj2 (make_error_boundary_rules
                                  "expected semicolon" 0 tokens_return_4
                                  Parser_init)))
             (tk int_kw "int")).
    + lia.
    + reflexivity.
  - apply (proj2 (proj2 (proj2 (make_error_boundary_rules
                                  "expected semicolon" 6 tokens_return_4
                                  Parser_init)))
             (tk number "4") (tk return_kw "return")).
    + split; [lia | reflexivity].
    + reflexivity.
    + reflexivity.
Defined.

(** ** Token-sequence matching *)

(** C8, as stated, fails when no kind is expected: every token slice then
    matches, and the count returned, 0, is not true in a condition. *)
Lemma match_tokens_empty_expected_falsy :
  kinds_match [] []
  /\ match_tokens [] [] = Py.Int 0
  /\ Py.truthy (match_tokens [] []) = false
  /\ ~ match_tokens_as_specified [] [].
Proof.
  assert (kinds_match [] []) as Hm.
  { split; [reflexivity | intros [|i] k; discriminate]. }
  repeat split; try reflexivity; try (intros [|i] k; discriminate).
  intros (_ & H & _). destruct (H Hm) as [_ Ht]. discriminate.
Qed.

(** C8, amended.  For every token slice and every list of expected kinds,
    [match_tokens] returns the number of expected kinds when there are at
    least as many tokens as kinds and the kinds agree position by
    position, and a value that is false in a condition and zero as a
    number otherwise, so it is all or nothing: [False] when the slice has
    fewer tokens than there are kinds, and 0 when it is long enough and
    a kind differs.  When at least one kind is expected, the value is
    true in a condition exactly when the kinds match; when none is
    expected the count returned is 0. *)
Theorem match_tokens_all_or_nothing
        (tokens : list Token) (kinds_expected : list TokenKind) :
  (kinds_match tokens kinds_expected ->
   match_tokens tokens kinds_expected = Py.Int (len kinds_expected))
  /\ (~ kinds_match tokens kinds_expected ->
      Py.truthy (match_tokens tokens kinds_expected) = false
      /\ Py.int_of (match_tokens tokens kinds_expected) = 0)
  /\ (kinds_expected <> [] ->
      (Py.truthy (match_tokens tokens kinds_expected) = true
       <-> kinds_match tokens kinds_expected))
  /\ (kinds_expected = [] -> match_tokens tokens kinds_expected = Py.Int 0)
  /\ ((List.length tokens < List.length kinds_expected)%nat ->
      match_tokens tokens kinds_expected = Py.Bool false)
  /\ ((List.length kinds_expected <= List.length tokens)%nat ->
      ~ kinds_match tokens kinds_expected ->
      match_tokens tokens kinds_expected = Py.Int 0).
Proof.
  split; [|split; [|split; [|split; [|split]]]].
  - apply match_tokens_match.
  - intros Hno.
    destruct (match_tokens_mismatch _ _ Hno) as [E|E]; now rewrite E.
  - intros Hne. split.
    + intros Ht. now apply match_tokens_truthy in Ht.
    + intros Hm. rewrite (match_tokens_match _ _ Hm). cbn.
      destruct kinds_expected as [|k ks]; [congruence|].
      rewrite len_cons. pose proof (len_nonneg ks).
      destruct (Z.eqb_spec (1 + len ks) 0); [lia | reflexivity].
  - intros ->. apply (match_tokens_match tokens []).
    split; [cbn; lia | intros [|i] k; discriminate].
  - intros Hshort. unfold match_tokens.
    destruct (Z.ltb_spec (len tokens) (len kinds_expected));
      [reflexivity | unfold len in *; lia].
  - intros Hlong Hno. unfold match_tokens.
    destruct (Z.ltb_spec (len tokens) (len kinds_expected));
      [unfold len in *; lia|].
    destruct (forallb _ _) eqn:E; [|reflexivity].
    exfalso. apply Hno. split; [assumption|].
    now apply forallb_combine_kinds.
Qed.

(** The header of [int main ( ) { return 4 ; }] matches the five kinds
    and yields 5; the two tokens [int main] are too few and yield [False];
    the five tokens [return 4 ; } extra] are enough, differ in kind and
    yield 0. *)
Lemma match_tokens_all_or_nothing_witness :
  (match_tokens tokens_return_4 kinds_before = Py.Int 5
   /\ Py.truthy (match_tokens tokens_return_4 kinds_before) = true)
  /\ Py.truthy (match_tokens [tk int_kw "int"; tk main "main"] kinds_before)
     = false
  /\ match_tokens [tk int_kw "int"; tk main "main"] kinds_before
     = Py.Bool false
  /\ match_tokens (Py.slice_from tokens_extra 5) kinds_before = Py.Int 0.
Proof.
  assert (kinds_match tokens_return_4 kinds_before) as Hm.
  { split; [cbn; lia|].
    intros [|[|[|[|[|i]]]]] k E; cbn in E;
      try (destruct i; discriminate);
      injection E as <-; eexists; split; reflexivity. }
  split; [split|split; [|split]].
  - exact (proj1 (match_tokens_all_or_nothing tokens_return_4 kinds_before) Hm).
  - apply (proj1 (proj2 (proj2 (match_tokens_all_or_nothing
                                  tokens_return_4 kinds_before)))).
    + discriminate.
    + exact Hm.
  - apply (proj1 (proj2 (match_tokens_all_or_nothing
                           [tk int_kw "int"; tk main "main"] kinds_before))).
    intros [Hlen _]. cbn in Hlen. lia.
  - apply (proj1 (proj2 (proj2 (proj2 (proj2
             (match_tokens_all_or_nothing
                [tk int_kw "int"; tk main "main"] kinds_before)))))).
    cbn. lia.
  - apply (proj2 (proj2 (proj2 (proj2 (proj2
             (match_tokens_all_or_nothing
                (Py.slice_from tokens_extra 5) kinds_before)))))).
    + vm_compute. lia.
    + intros [_ Hk]. destruct (Hk 0%nat int_kw eq_refl) as (t & Et & Hkind).
      vm_compute in Et. injection Et as <-. discriminate.
Defined.

(** ** Furthest-error selection *)

(** C1. When the program-entry matcher fails, [parse] raises an error of
    the log: one whose index is the greatest of the log, and the last
    recorded among the records with that index (every earlier record has
    an index at most as great, every later one a smaller index).  So of
    two records with indices i < j the one at j is raised, whichever was
    recorded first, and of two records with the same index the later. *)
Theorem furthest_error_raised :
  (forall (tokens : list Token) (p p' : Parser) (i : Z),
      expect_main (S (List.length tokens)) tokens 0 p
      = Some (Returned (None, i), p') ->
      exists e j before after,
        parse tokens p = Some (Raised (SyntaxError e), p')
        /\ errors p' = before ++ (e, j) :: after
        /\ (forall r, In r before -> snd r <= j)
        /\ (forall r, In r after -> snd r < j))
  /\ (forall (e1 e2 : CompilerError) (i j : Z),
         i < j ->
         Py.getitem (Py.sorted snd [(e1, i); (e2, j)]) (-1) = Some (e2, j)
         /\ Py.getitem (Py.sorted snd [(e2, j); (e1, i)]) (-1) = Some (e2, j))
  /\ (forall (e1 e2 : CompilerError) (i : Z),
         Py.getitem (Py.sorted snd [(e1, i); (e2, i)]) (-1) = Some (e2, i)).
Proof.
  split; [|split].
  - intros tokens p p' i H.
    destruct (expect_main_inv _ _ _ _ _ _ H) as (ex & -> & _ & Hfail).
    destruct (sorted_last snd (errors (extend p ex)))
      as ([e j] & Hget & before & after & El & Hb & Ha).
    { cbn. intros E. apply app_eq_nil in E as [_ E].
      now apply main_failure_nonempty in Hfail. }
    exists e, j, before, after. repeat split; try assumption.
    unfold parse, parse_fuel, bind. rewrite H.
    unfold get_errors, subscript. now rewrite Hget.
  - intros e1 e2 i j Hij. cbn.
    destruct (Z.leb_spec i j); [|lia].
    destruct (Z.leb_spec j i); [lia|]. now split.
  - intros e1 e2 i. cbn. destruct (Z.leb_spec i i); [reflexivity | lia].
Qed.

(** On [int main ( ) { return ; }] the matcher fails with two records, at
    6 and then at 5, and the one at 6 is raised. *)
Lemma furthest_error_raised_witness :
  expect_main 9 tokens_return_nothing 0 Parser_init
  = Some (Returned (None, 0), {| errors := log_return_nothing |})
  /\ exists e j before after,
      parse tokens_return_nothing Parser_init
      = Some (Raised (SyntaxError e), {| errors := log_return_nothing |})
      /\ log_return_nothing = before ++ (e, j) :: after
      /\ (forall r, In r before -> snd r <= j)
      /\ (forall r, In r after -> snd r < j).
Proof.
  split; [reflexivity|].
  exact (proj1 furthest_error_raised tokens_return_nothing Parser_init
               {| errors := log_return_nothing |} 0 eq_refl).
Defined.

(** ** Sequences of the grammar *)

Lemma make_error_GOT message tokens index t q :
  0 <= index -> Py.getitem tokens index = Some t ->
  make_error message index tokens GOT q
  = Some (Returned (error_at (message ++ ", got '" ++ content t ++ "'") t), q).
Proof.
  intros Hi Ht. apply getitem_Some_bound in Ht as Hb.
  destruct (Z.eq_dec index 0) as [->|Hne].
  - now apply make_error_at_start.
  - destruct (getitem_in_range tokens (index - 1)) as [prev Hprev]; [lia|].
    now apply (make_error_inside message tokens q index t prev); [lia|..].
Qed.

Lemma expect_return_ok tokens index r n sc p :
  Py.getitem tokens index = Some r -> kind r = return_kw ->
  Py.getitem tokens (index + 1) = Some n -> kind n = number ->
  Py.getitem tokens (index + 1 + 1) = Some sc -> kind sc = semicolon ->
  expect_return tokens index p
  = Some (Returned (Some (ReturnNode (NumberNode n)), index + 1 + 1 + 1), p).
Proof.
  intros Er Hr En Hn Esc Hsc.
  apply getitem_Some_bound in Er as Hb. apply getitem_Some_bound in Esc as Hb'.
  unfold expect_return, expect_expression, bind, subscript, ret.
  destruct (Z.gtb_spec (len tokens) index); [|lia].
  rewrite Er, Hr. cbn. rewrite En, Hn. cbn.
  destruct (Z.gtb_spec (len tokens) (index + 1 + 1)); [|lia].
  rewrite Esc, Hsc. reflexivity.
Qed.

Lemma expect_return_not_return tokens index t p :
  0 <= index -> Py.getitem tokens index = Some t -> kind t <> return_kw ->
  expect_return tokens index p
  = Some (Returned (None, 0),
          extend p [(error_at ("expected return keyword, got '"
                                 ++ content t ++ "'") t, index)]).
Proof.
  intros Hi Et Hk. apply getitem_Some_bound in Et as Hb.
  unfold expect_return, bind, subscript, ret.
  destruct (Z.gtb_spec (len tokens) index); [|lia].
  rewrite Et. destruct (kind_eqb (kind t) return_kw) eqn:E.
  - apply kind_eqb_true in E. contradiction.
  - unfold add_error, bind. now rewrite (make_error_GOT _ _ _ t).
Qed.

Lemma len_flat_map_statements body :
  len (flat_map statement_tokens body) = 3 * len body.
Proof.
  induction body as [|[[r n] sc] body IH]; [reflexivity|].
  cbn [flat_map statement_tokens]. rewrite len_app, IH, !len_cons.
  change (len (@nil Token)) with 0. lia.
Qed.

(** The loop reads the statements one after the other and stops at the
    first token that is not [return]. *)
Lemma statement_loop_body : forall body before stop rest nodes p fuel,
  Forall statement_kinds body ->
  kind stop <> return_kw ->
  (List.length body < fuel)%nat ->
  statement_loop fuel (before ++ flat_map statement_tokens body ++ stop :: rest)
                 (len before) nodes p
  = Some (Returned (nodes ++ map statement_node body,
                    len before + 3 * len body),
          extend p [(error_at ("expected return keyword, got '"
                                 ++ content stop ++ "'") stop,
                     len before + 3 * len body)]).
Proof.
  induction body as [|[[r n] sc] body IH];
    intros before stop rest nodes p [|fuel] Hkinds Hstop Hfuel;
    cbn [List.length] in Hfuel; try lia.
  - cbn [flat_map app statement_loop map]. unfold expect_statement, bind.
    rewrite (expect_return_not_return _ _ stop);
      [| apply len_nonneg | now apply getitem_middle | assumption].
    unfold ret. rewrite app_nil_r. change (len (@nil Statement)) with 0.
    now replace (len before + 3 * 0) with (len before) by lia.
  - apply Forall_cons_iff in Hkinds as [(Hr & Hn & Hsc) Hkinds].
    cbn [flat_map statement_tokens app statement_loop map].
    unfold expect_statement, bind.
    rewrite (expect_return_ok _ _ r n sc); try assumption.
    + unfold ret.
      specialize (IH (before ++ [r; n; sc]) stop rest
                     (nodes ++ [ReturnNode (NumberNode n)]) p fuel
                     Hkinds Hstop ltac:(lia)).
      rewrite <- app_assoc in IH. cbn [app] in IH.
      rewrite len_app, !len_cons in IH. change (len (@nil Token)) with 0 in IH.
      replace (len before + (1 + (1 + (1 + 0)))) with (len before + 1 + 1 + 1)
        in IH by lia.
      rewrite IH, <- app_assoc, len_cons. cbn [app statement_node].
      now replace (len before + 3 * (1 + len body))
        with (len before + 1 + 1 + 1 + 3 * len body) by lia.
    + now apply getitem_middle.
    + change (before ++ r :: n :: sc :: ?l) with (before ++ [r] ++ n :: sc :: l).
      rewrite app_assoc. apply getitem_middle.
      rewrite len_app, len_cons. reflexivity.
    + change (before ++ r :: n :: sc :: ?l) with (before ++ [r; n] ++ sc :: l).
      rewrite app_assoc. apply getitem_middle.
      rewrite len_app, !len_cons. change (len (@nil Token)) with 0. lia.
Qed.

Lemma header_kinds_match head rest :
  map kind head = kinds_before -> kinds_match (head ++ rest) kinds_before.
Proof.
  intros H.
  destruct head as [|h1 [|h2 [|h3 [|h4 [|h5 [|h6 head]]]]]]; try discriminate.
  injection H as H1 H2 H3 H4 H5.
  split; [cbn; lia|].
  intros [|[|[|[|[|i]]]]] k E; cbn in E;
    try (destruct i; discriminate);
    injection E as <-; eexists; (split; [reflexivity | assumption]).
Qed.

(** C3. For every token sequence of the grammar, that is, five tokens of
    the kinds [int main ( ) {], then any number of statements each made of
    a [return] token, a number token and a semicolon token, then a [}]
    token, [parse] returns a [MainNode] whose i-th item is the
    [ReturnNode] of the [NumberNode] holding the number token of the i-th
    statement.  The one record left in the log is the failed attempt to
    read a further statement at the closing brace. *)
Theorem parse_grammar (head : list Token) (body : list Statement)
        (closing : Token) (p : Parser) :
  map kind head = kinds_before ->
  Forall statement_kinds body ->
  kind closing = close_brack ->
  parse (program_tokens head body closing) p
  = Some (Returned (MainNode (map statement_node body)),
          extend p [(error_at ("expected return keyword, got '"
                                 ++ content closing ++ "'") closing,
                     5 + 3 * len body)])
  /\ forall i r n sc,
      nth_error body i = Some (r, n, sc) ->
      nth_error (map statement_node body) i = Some (ReturnNode (NumberNode n)).
Proof.
  intros Hhead Hbody Hclosing. split.
  2:{ intros i r n sc E. rewrite nth_error_map, E. reflexivity. }
  assert (len head = 5) as Hlen.
  { unfold len. rewrite <- (length_map kind), Hhead. reflexivity. }
  set (tokens := program_tokens head body closing).
  assert (len tokens = 5 + 3 * len body + 1) as Htokens.
  { unfold tokens, program_tokens.
    rewrite !len_app, len_flat_map_statements, len_cons, Hlen.
    change (len (@nil Token)) with 0. lia. }
  unfold parse, parse_fuel, expect_main. fold kinds_before.
  change (Py.slice_from tokens 0) with tokens.
  rewrite (match_tokens_match tokens kinds_before)
    by now apply header_kinds_match.
  change (Py.truthy (Py.Int (len kinds_before))) with true.
  change (Py.int_of (Py.Int (len kinds_before))) with 5.
  cbv iota. unfold bind at 1. unfold bind at 1.
  replace (0 + 5) with (len head) by lia.
  assert (statement_loop (S (List.length tokens)) tokens (len head) [] p
          = Some (Returned ([] ++ map statement_node body,
                            len head + 3 * len body),
                  extend p [(error_at ("expected return keyword, got '"
                                         ++ content closing ++ "'") closing,
                             len head + 3 * len body)])) as Hloop.
  { unfold tokens at 2. unfold program_tokens.
    apply statement_loop_body; try assumption.
    - rewrite Hclosing. discriminate.
    - apply Nat2Z.inj_lt. rewrite Nat2Z.inj_succ. fold (len body) (len tokens).
      pose proof (len_nonneg body). lia. }
  rewrite Hloop.
  cbn [app]. rewrite Hlen. unfold bind at 1.
  destruct (Z.gtb_spec (len tokens) (5 + 3 * len body)); [|lia].
  unfold subscript, bind at 1.
  replace (Py.getitem tokens (5 + 3 * len body)) with (Some closing).
  2:{ symmetry. unfold tokens, program_tokens. rewrite app_assoc.
      apply getitem_middle.
      rewrite len_app, len_flat_map_statements. lia. }
  unfold ret at 1. unfold ret at 1. rewrite Hclosing. cbn [kind_eqb].
  change (kind_eqb close_brack close_brack) with true. cbv iota.
  unfold ret at 1.
  replace (Py.slice_from tokens (5 + 3 * len body + 1)) with (@nil Token).
  2:{ symmetry. apply slice_from_nil_iff; pose proof (len_nonneg body); lia. }
  reflexivity.
Qed.

(** [int main ( ) { return 4 ; }] gives one [ReturnNode] of the
    [NumberNode] of the token [4]. *)
Lemma parse_grammar_witness :
  parse tokens_return_4 Parser_init
  = Some (Returned (MainNode [ReturnNode (NumberNode (tk number "4"))]),
          {| errors := [(error_at "expected return keyword, got '}'"
                                  (tk close_brack "}"), 8)] |}).
Proof.
  apply (parse_grammar header
           [(tk return_kw "return", tk number "4", tk semicolon ";")]
           (tk close_brack "}") Parser_init).
  - reflexivity.
  - repeat constructor.
  - reflexivity.
Defined.

(** ** A missing number *)

(** C5. On [int main ( ) { return ; }] the expression matcher, started at
    the semicolon (index 6), records "expected number, got ';'" at 6; the
    return matcher, started at 5, fails with that record alone in the log;
    the program-entry matcher then records "expected closing brace" at 5;
    and [parse] raises the error recorded at 6. *)
Theorem parse_return_without_number :
  expect_expression tokens_return_nothing 6 Parser_init
  = Some (Returned (None, 0), {| errors := [(expected_number_error, 6)] |})
  /\ expect_return tokens_return_nothing 5 Parser_init
     = Some (Returned (None, 0), {| errors := [(expected_number_error, 6)] |})
  /\ expect_main 9 tokens_return_nothing 0 Parser_init
     = Some (Returned (None, 0),
             {| errors := [(expected_number_error, 6);
                           (expected_closing_brace_error, 5)] |})
  /\ parse tokens_return_nothing Parser_init
     = Some (Raised (SyntaxError expected_number_error),
             {| errors := [(expected_number_error, 6);
                           (expected_closing_brace_error, 5)] |})
  /\ expected_number_error
     = mkCompilerError "expected number, got ';'" (Some "main.c"%string) (Some 1).
Proof. repeat split; reflexivity. Qed.

(** ** Tokens after the program *)

Lemma slice_from_first {A : Type} (l : list A) (i : Z) (a : A) :
  0 <= i -> Py.getitem l i = Some a ->
  exists rest, Py.slice_from l i = a :: rest.
Proof.
  intros Hi. rewrite getitem_nonneg by assumption. unfold Py.slice_from.
  destruct (Z.leb_spec 0 i); [|lia].
  generalize (Z.to_nat i). clear. intros n. revert l.
  induction n as [|n IH]; intros [|x l] E; try discriminate.
  - injection E as ->. now exists l.
  - apply (IH l E).
Qed.

(** C6. If the program-entry matcher succeeds at an index short of the end
    of the token sequence, [parse] raises "unexpected token at '<text>'"
    about the token at that index, the first one left over, with that
    token's file name and line. *)
Theorem trailing_tokens_rejected
        (tokens : list Token) (p p' : Parser) (node : Node) (index : Z) :
  expect_main (S (List.length tokens)) tokens 0 p
  = Some (Returned (Some node, index), p') ->
  index < len tokens ->
  exists token rest,
    Py.slice_from tokens index = token :: rest
    /\ parse tokens p
       = Some (Raised (SyntaxError
                         (mkCompilerError
                            ("unexpected token at '" ++ content token ++ "'")
                            (Some (file_name token))
                            (Some (line_num token)))), p').
Proof.
  intros H Hlt.
  destruct (expect_main_inv _ _ _ _ _ _ H) as (ex & -> & Hi & _).
  destruct (getitem_in_range tokens index) as [t Ht]; [lia|].
  destruct (getitem_in_range tokens (index - 1)) as [t' Ht']; [lia|].
  destruct (slice_from_first tokens index t) as [rest Hrest]; [lia | assumption|].
  exists t, rest. split; [assumption|].
  unfold parse, parse_fuel, bind. rewrite H, Hrest.
  destruct (make_error_inside "unexpected token" tokens (extend p ex)
              index t t') as [E _]; [lia | assumption..|].
  now rewrite E.
Qed.

(** [int main ( ) { return 4 ; } extra]: the program is read up to index
    9, and the token [extra] there is reported. *)
Lemma trailing_tokens_rejected_witness :
  expect_main 11 tokens_extra 0 Parser_init
  = Some (Returned (Some (MainNode [ReturnNode (NumberNode (tk number "4"))]),
                    9),
          {| errors := [(error_at "expected return keyword, got '}'"
                                  (tk close_brack "}"), 8)] |})
  /\ exists token rest,
      Py.slice_from tokens_extra 9 = token :: rest
      /\ parse tokens_extra Parser_init
         = Some (Raised (SyntaxError
                           (mkCompilerError
                              ("unexpected token at '" ++ content token ++ "'")
                              (Some (file_name token))
                              (Some (line_num token)))),
                 {| errors := [(error_at "expected return keyword, got '}'"
                                         (tk close_brack "}"), 8)] |}).
Proof.
  split; [reflexivity|].
  apply (trailing_tokens_rejected tokens_extra Parser_init _
           (MainNode [ReturnNode (NumberNode (tk number "4"))]) 9).
  - reflexivity.
  - reflexivity.
Defined.

(** ** The end of the tokens inside a statement *)

(** C4, the code.  Started at or beyond the end of the tokens, the
    expression matcher subscripts the token list out of range: IndexError
    is raised and nothing is recorded.  On [int main ( ) { return] the
    exception leaves [parse], with an empty log. *)
Theorem expect_expression_past_end :
  (forall (tokens : list Token) (beyond : nat) (p : Parser),
      expect_expression tokens (len tokens + Z.of_nat beyond) p
      = Some (Raised IndexError, p))
  /\ expect_expression tokens_cut_after_return 6 Parser_init
     = Some (Raised IndexError, Parser_init)
  /\ parse tokens_cut_after_return Parser_init
     = Some (Raised IndexError, Parser_init).
Proof.
  split; [|split; reflexivity].
  intros tokens beyond p. unfold expect_expression, bind, subscript.
  rewrite getitem_past_end by lia. reflexivity.
Qed.

(** C2, the code.  Every run of [parse] ends in exactly one of three ways:
    it returns a [MainNode]; it raises a syntax error; or IndexError
    escapes, which happens only when the tokens stop right after a
    [return] keyword, and does happen on [int main ( ) { return]. *)
Theorem parse_outcomes :
  (forall (tokens : list Token) (p : Parser),
      exists o ex,
        parse tokens p = Some (o, extend p ex)
        /\ match o with
           | Returned node => exists nodes, node = MainNode nodes
           | Raised (SyntaxError e) => True
           | Raised IndexError => ends_with_return tokens
           | Raised (ValueError _) => False
           end)
  /\ parse tokens_cut_after_return Parser_init
     = Some (Raised IndexError, Parser_init).
Proof.
  split; [|reflexivity].
  intros tokens p. destruct (parse_runs tokens p) as (o & ex & E & Hpost).
  exists o, ex. split; [assumption|].
  destruct o as [node|[|msg|e]]; cbn in Hpost.
  - destruct Hpost as ((nodes & -> & _) & _). eauto.
  - apply Hpost.
  - assumption.
  - exact I.
Qed.

(** ** Termination *)

(** C9. [parse] comes to an end on every token sequence: with a loop
    budget above the number of tokens the run ends, and always with the
    same result.  A matcher that succeeds returns an index beyond the one
    it was started at and not beyond the end of the tokens; so each
    successful iteration of the statement loop moves the index forward,
    and the loop started at [index] ends within [len(tokens) - index]
    iterations and one more. *)
Theorem parse_terminates :
  (forall (tokens : list Token) (p : Parser),
      exists r,
        parse tokens p = Some r
        /\ forall fuel, (List.length tokens < fuel)%nat ->
                        parse_fuel fuel tokens p = Some r)
  /\ (forall tokens index nodes p,
         exists r,
           forall fuel, (Z.to_nat (len tokens - index) < fuel)%nat ->
                        statement_loop fuel tokens index nodes p = Some r)
  /\ (forall tokens index p node index' p',
         expect_expression tokens index p
         = Some (Returned (Some node, index'), p') ->
         index < index' <= len tokens)
  /\ (forall tokens index p node index' p',
         expect_return tokens index p
         = Some (Returned (Some node, index'), p') ->
         index < index' <= len tokens)
  /\ (forall tokens index p node index' p',
         expect_statement tokens index p
         = Some (Returned (Some node, index'), p') ->
         index < index' <= len tokens)
  /\ (forall fuel tokens index p node index' p',
         expect_main fuel tokens index p
         = Some (Returned (Some node, index'), p') ->
         index < index' <= len tokens).
Proof.
  repeat apply conj.
  - intros tokens p.
    destruct (parse_fuel_runs tokens (List.length tokens) p (le_n _))
      as (o & ex & Hrun & _).
    exists (o, extend p ex). split; [apply Hrun; lia | exact Hrun].
  - intros tokens index nodes p.
    destruct (statement_loop_runs tokens (Z.to_nat (len tokens - index))
                index nodes p (le_n _)) as (o & ex & Hrun & _).
    now exists (o, extend p ex).
  - intros tokens index p node index' p' H.
    destruct (runs_inv _ _ _ _ _ (expect_expression_runs tokens index p) H)
      as (ex & _ & _ & -> & t & Et & _).
    apply getitem_Some_bound in Et. lia.
  - intros tokens index p node index' p' H.
    destruct (runs_inv _ _ _ _ _ (expect_return_runs tokens index p) H)
      as (ex & _ & _ & -> & Hle & _). lia.
  - intros tokens index p node index' p' H.
    destruct (runs_inv _ _ _ _ _ (expect_statement_runs tokens index p) H)
      as (ex & _ & _ & -> & Hle & _). lia.
  - intros fuel tokens index p node index' p' H.
    destruct (expect_main_inv _ _ _ _ _ _ H) as (ex & _ & Hi & _). lia.
Qed.

(** On [int main ( ) { return 4 ; }] the statement at index 5 is read up
    to index 8, of 9 tokens. *)
Lemma parse_terminates_witness :
  expect_statement tokens_return_4 5 Parser_init
  = Some (Returned (Some (ReturnNode (NumberNode (tk number "4"))), 8),
          Parser_init)
  /\ 5 < 8 <= len tokens_return_4.
Proof.
  split; [reflexivity|].
  apply (proj1 (proj2 (proj2 (proj2 (proj2 parse_terminates))))
           tokens_return_4 5 Parser_init
           (ReturnNode (NumberNode (tk number "4"))) 8 Parser_init).
  reflexivity.
Defined.

(** ** The error log only grows *)

Lemma make_error_state message index tokens message_type p o p' :
  make_error message index tokens message_type p = Some (o, p') -> p' = p.
Proof.
  unfold make_error, bind, subscript, ret, raise.
  repeat match goal with
         | |- context [if ?b then _ else _] => destruct b
         | |- context [match Py.getitem ?l ?i with _ => _ end] =>
             destruct (Py.getitem l i)
         end;
    intros [= _ <-]; reflexivity.
Qed.

Lemma add_error_grows message index tokens message_type p o p' :
  add_error message index tokens message_type p = Some (o, p') ->
  exists ex, p' = extend p ex.
Proof.
  unfold add_error, bind.
  destruct (make_error message index tokens message_type p)
    as [[[e|e] q]|] eqn:E; [| |discriminate];
    apply make_error_state in E; subst q; intros [= _ <-].
  - now exists [(e, index)].
  - exists []. now rewrite extend_nil.
Qed.

Lemma state_after_grows c p p' :
  state_after c p = Some p' -> exists ex, p' = extend p ex.
Proof.
  destruct c; cbn [state_after];
    try (match goal with
         | |- option_map snd ?m = _ -> _ =>
             destruct m as [[o q]|] eqn:E; [|discriminate];
             intros [= <-]
         end).
  - destruct (parse_fuel_inv _ _ _ _ _ E) as (ex & -> & _). eauto.
  - destruct (expect_main_inv _ _ _ _ _ _ E) as (ex & -> & _). eauto.
  - destruct (runs_inv _ _ _ _ _ (expect_statement_runs tokens index p) E)
      as (ex & -> & _). eauto.
  - destruct (runs_inv _ _ _ _ _ (expect_return_runs tokens index p) E)
      as (ex & -> & _). eauto.
  - destruct (runs_inv _ _ _ _ _ (expect_expression_runs tokens index p) E)
      as (ex & -> & _). eauto.
  - intros [= <-]. exists []. now rewrite extend_nil.
  - apply add_error_grows in E. exact E.
  - apply make_error_state in E. subst q. exists []. now rewrite extend_nil.
Qed.

Lemma state_after_calls_grows cs : forall p p',
  state_after_calls cs p = Some p' -> exists ex, p' = extend p ex.
Proof.
  induction cs as [|c cs IH]; intros p p'; cbn [state_after_calls].
  - intros [= <-]. exists []. now rewrite extend_nil.
  - destruct (state_after c p) as [q|] eqn:E; [|discriminate].
    intros H. apply state_after_grows in E as [ex1 ->].
    apply IH in H as [ex2 ->]. exists (ex1 ++ ex2). apply extend_extend.
Qed.

(** C10. After any sequence of calls of the methods of one parser object,
    whether they return or raise, the log is the log from before with
    records appended: nothing is removed, and [parse] does not reset it.
    So a later [parse] whose program-entry matcher fails selects from the
    records of earlier calls together with its own.  After
    [int main ( ) { return ; }] the same parser, given [extra], raises the
    old "expected number" error recorded at index 6, where a fresh parser
    raises "expected main function starting at 'extra'". *)
Theorem error_log_monotone :
  (forall (cs : list call) (p p' : Parser),
      state_after_calls cs p = Some p' ->
      (exists extra, errors p' = errors p ++ extra)
      /\ (List.length (errors p) <= List.length (errors p'))%nat)
  /\ (forall (tokens : list Token) (p p' : Parser) (i : Z),
         expect_main (S (List.length tokens)) tokens 0 p
         = Some (Returned (None, i), p') ->
         exists own r,
           errors p' = errors p ++ own
           /\ Py.getitem (Py.sorted snd (errors p ++ own)) (-1) = Some r
           /\ parse tokens p = Some (Raised (SyntaxError (fst r)), p'))
  /\ (parse tokens_return_nothing Parser_init
      = Some (Raised (SyntaxError expected_number_error),
              {| errors := log_return_nothing |})
      /\ parse tokens_only_extra Parser_init
         = Some (Raised (SyntaxError expected_main_error),
                 {| errors := [(expected_main_error, 0)] |})
      /\ parse tokens_only_extra {| errors := log_return_nothing |}
         = Some (Raised (SyntaxError expected_number_error),
                 {| errors := log_return_nothing
                                ++ [(expected_main_error, 0)] |})).
Proof.
  split; [|split; [|repeat split; reflexivity]].
  - intros cs p p' H. apply state_after_calls_grows in H as [ex ->].
    cbn [extend errors]. split; [eauto|]. rewrite length_app. lia.
  - intros tokens p p' i H.
    destruct (expect_main_inv _ _ _ _ _ _ H) as (ex & -> & _ & Hfail).
    destruct (sorted_last snd (errors (extend p ex))) as (r & Hget & _).
    { cbn. intros E. apply app_eq_nil in E as [_ E].
      now apply main_failure_nonempty in Hfail. }
    exists ex, r. cbn [extend errors] in *. repeat split; try assumption.
    unfold parse, parse_fuel, bind. rewrite H.
    unfold get_errors, subscript. cbn [errors extend]. now rewrite Hget.
Qed.

(** Two calls of [parse] on one parser: the log after the second call
    starts with the log from before. *)
Lemma error_log_monotone_witness :
  state_after_calls [call_parse tokens_return_nothing;
                     call_parse tokens_only_extra] Parser_init
  = Some {| errors := log_return_nothing ++ [(expected_main_error, 0)] |}
  /\ (exists extra,
         log_return_nothing ++ [(expected_main_error, 0)] = [] ++ extra)
  /\ (0 <= 3)%nat.
Proof.
  split; [reflexivity|].
  exact (proj1 error_log_monotone
               [call_parse tokens_return_nothing; call_parse tokens_only_extra]
               Parser_init
               {| errors := log_return_nothing ++ [(expected_main_error, 0)] |}
               eq_refl).
Defined.


(** * Further properties of the parser *)

(** ** Which record [parse] raises, given the log *)

Lemma sorted_last_is {A : Type} (key : A -> Z) (before : list A) :
  forall (x : A) (after : list A),
    (forall y, In y before -> key y <= key x) ->
    (forall y, In y after -> key y < key x) ->
    Py.getitem (Py.sorted key (before ++ x :: after)) (-1) = Some x.
Proof.
  induction before as [|a before IH]; intros x after Hb Ha; cbn [app Py.sorted].
  - destruct (insert_by_end key x (Py.sorted key after))
      as [[E _] | (s0 & s' & z & y & _ & _ & Hy & Hk)].
    + rewrite E. apply getitem_last.
    + apply sorted_In in Hy. specialize (Ha y Hy). lia.
  - specialize (IH x after (fun y Hy => Hb y (or_intror Hy)) Ha).
    destruct (insert_by_end key a (Py.sorted key (before ++ x :: after)))
      as [[E Hall] | (s0 & s' & z & y & Es & E & _ & _)].
    + assert (key x < key a).
      { apply Hall, sorted_In, in_or_app. right. now left. }
      assert (key a <= key x) by (apply Hb; now left). lia.
    + rewrite Es, getitem_last in IH. injection IH as ->.
      rewrite E. apply getitem_last.
Qed.

Lemma parse_raises tokens p p' i before e j after :
  expect_main (S (List.length tokens)) tokens 0 p
  = Some (Returned (None, i), p') ->
  errors p' = before ++ (e, j) :: after ->
  (forall r, In r before -> snd r <= j) ->
  (forall r, In r after -> snd r < j) ->
  parse tokens p = Some (Raised (SyntaxError e), p').
Proof.
  intros H El Hb Ha. unfold parse, parse_fuel, bind. rewrite H.
  unfold get_errors, subscript. rewrite El.
  now rewrite (sorted_last_is snd before (e, j) after Hb Ha).
Qed.

(** ** [make_error], style by style *)

Lemma make_error_AFTER message tokens index prev q :
  0 < index -> Py.getitem tokens (index - 1) = Some prev ->
  make_error message index tokens AFTER q
  = Some (Returned (error_at (message ++ " after '" ++ content prev ++ "'")
                             prev), q).
Proof.
  intros Hi Hprev. apply getitem_Some_bound in Hprev as Hb.
  destruct (Z.le_gt_cases (len tokens) index) as [Hge|Hlt].
  - apply make_error_past_end; [assumption|].
    now replace (len tokens) with index by lia.
  - destruct (getitem_in_range tokens index) as [t Ht]; [lia|].
    now apply (make_error_inside message tokens q index t prev).
Qed.

Lemma make_error_AT message tokens index t q :
  0 <= index -> Py.getitem tokens index = Some t ->
  make_error message index tokens AT q
  = Some (Returned (error_at (message ++ " at '" ++ content t ++ "'") t), q).
Proof.
  intros Hi Ht. apply getitem_Some_bound in Ht as Hb.
  destruct (Z.eq_dec index 0) as [->|Hne].
  - now apply make_error_at_start.
  - destruct (getitem_in_range tokens (index - 1)) as [prev Hprev]; [lia|].
    now apply (make_error_inside message tokens q index t prev); [lia|..].
Qed.

Lemma add_error_appends message index tokens message_type e p :
  make_error message index tokens message_type p = Some (Returned e, p) ->
  add_error message index tokens message_type p
  = Some (Returned (None, 0), extend p [(e, index)]).
Proof. intros E. unfold add_error, bind. now rewrite E. Qed.

(** ** Statements read, then a stop *)

Lemma getitem_app_right {A : Type} (l1 l2 : list A) (i : Z) :
  0 <= i -> Py.getitem (l1 ++ l2) (len l1 + i) = Py.getitem l2 i.
Proof.
  intros Hi. pose proof (len_nonneg l1).
  rewrite !getitem_nonneg by lia.
  rewrite nth_error_app2 by (unfold len; lia).
  f_equal. unfold len. lia.
Qed.

Lemma expect_statement_as_return tokens index p :
  expect_statement tokens index p = expect_return tokens index p.
Proof.
  unfold expect_statement, bind.
  now destruct (expect_return tokens index p) as [[[[node i]|e] q]|].
Qed.

(** The loop reads the statements it finds and hands back the state the
    first failing attempt leaves. *)
Lemma statement_loop_prefix : forall body before rest nodes p q fuel,
  Forall statement_kinds body ->
  (List.length body < fuel)%nat ->
  expect_statement (before ++ flat_map statement_tokens body ++ rest)
                   (len before + 3 * len body) p
  = Some (Returned (None, 0), q) ->
  statement_loop fuel (before ++ flat_map statement_tokens body ++ rest)
                 (len before) nodes p
  = Some (Returned (nodes ++ map statement_node body,
                    len before + 3 * len body), q).
Proof.
  induction body as [|[[r n] sc] body IH];
    intros before rest nodes p q [|fuel] Hkinds Hfuel Hstop;
    cbn [List.length] in Hfuel; try lia.
  - cbn [flat_map app statement_loop map] in *. unfold bind.
    change (len (@nil Statement)) with 0 in *.
    replace (len before + 3 * 0) with (len before) in * by lia.
    rewrite Hstop. unfold ret. now rewrite app_nil_r.
  - apply Forall_cons_iff in Hkinds as [(Hr & Hn & Hsc) Hkinds].
    cbn [flat_map statement_tokens app statement_loop map] in *.
    unfold bind. rewrite expect_statement_as_return.
    rewrite (expect_return_ok _ _ r n sc); try assumption.
    + unfold ret.
      specialize (IH (before ++ [r; n; sc]) rest
                     (nodes ++ [ReturnNode (NumberNode n)]) p q fuel
                     Hkinds ltac:(lia)).
      rewrite <- app_assoc in IH. cbn [app] in IH.
      rewrite len_app, !len_cons in IH. change (len (@nil Token)) with 0 in IH.
      rewrite len_cons in Hstop.
      replace (len before + (1 + (1 + (1 + 0))) + 3 * len body)
        with (len before + 3 * (1 + len body)) in IH by lia.
      replace (len before + (1 + (1 + (1 + 0)))) with (len before + 1 + 1 + 1)
        in IH by lia.
      rewrite (IH Hstop), <- app_assoc, len_cons. reflexivity.
    + now apply getitem_middle.
    + change (before ++ r :: n :: sc :: ?l) with (before ++ [r] ++ n :: sc :: l).
      rewrite app_assoc. apply getitem_middle.
      rewrite len_app, len_cons. reflexivity.
    + change (before ++ r :: n :: sc :: ?l) with (before ++ [r; n] ++ sc :: l).
      rewrite app_assoc. apply getitem_middle.
      rewrite len_app, !len_cons. change (len (@nil Token)) with 0. lia.
Qed.

Lemma len_head head : map kind head = kinds_before -> len head = 5.
Proof.
  intros H. unfold len. now rewrite <- (length_map kind), H.
Qed.

Lemma getitem_after_body {A : Type} (head : list A) (middle rest : list A) i k :
  0 <= k -> i = len head + len middle + k ->
  Py.getitem (head ++ middle ++ rest) i = Py.getitem rest k.
Proof.
  intros Hk ->. rewrite app_assoc, <- len_app. now apply getitem_app_right.
Qed.

(** After the header and the statements, a failing statement attempt and
    no closing brace: the program-entry matcher records "expected closing
    brace" at the index where the attempt started. *)
Lemma expect_main_stops head body rest p q fuel :
  map kind head = kinds_before ->
  Forall statement_kinds body ->
  (List.length body < fuel)%nat ->
  expect_statement (head ++ flat_map statement_tokens body ++ rest)
                   (5 + 3 * len body) p
  = Some (Returned (None, 0), q) ->
  (forall t rest', rest = t :: rest' -> kind t <> close_brack) ->
  expect_main fuel (head ++ flat_map statement_tokens body ++ rest) 0 p
  = add_error "expected closing brace" (5 + 3 * len body)
              (head ++ flat_map statement_tokens body ++ rest) GOT q.
Proof.
  intros Hhead Hbody Hfuel Hstop Hrest.
  pose proof (len_head head Hhead) as Hlen.
  set (tokens := head ++ flat_map statement_tokens body ++ rest) in *.
  unfold expect_main. fold kinds_before.
  change (Py.slice_from tokens 0) with tokens.
  rewrite (match_tokens_match tokens kinds_before)
    by now apply header_kinds_match.
  change (Py.truthy (Py.Int (len kinds_before))) with true.
  change (Py.int_of (Py.Int (len kinds_before))) with 5.
  cbv iota. unfold bind at 1.
  replace (0 + 5) with (len head) by lia.
  rewrite <- Hlen in Hstop.
  unfold tokens at 1.
  rewrite (statement_loop_prefix body head rest [] p q fuel Hbody Hfuel Hstop).
  fold tokens. rewrite Hlen. unfold bind at 1.
  assert (len tokens = 5 + 3 * len body + len rest) as Htokens.
  { unfold tokens. rewrite !len_app, len_flat_map_statements. lia. }
  destruct rest as [|t rest'].
  - change (len (@nil Token)) with 0 in Htokens.
    destruct (Z.gtb_spec (len tokens) (5 + 3 * len body)); [lia|].
    reflexivity.
  - rewrite len_cons in Htokens. pose proof (len_nonneg rest').
    destruct (Z.gtb_spec (len tokens) (5 + 3 * len body)); [|lia].
    unfold subscript, bind at 1.
    replace (Py.getitem tokens (5 + 3 * len body)) with (Some t).
    2:{ symmetry. unfold tokens.
        rewrite (getitem_after_body head _ (t :: rest') _ 0); [reflexivity|lia|].
        rewrite len_flat_map_statements. lia. }
    unfold ret at 1.
    destruct (kind_eqb (kind t) close_brack) eqn:E; [|reflexivity].
    apply kind_eqb_true in E. now apply (Hrest t rest' eq_refl) in E.
Qed.

Lemma expect_return_no_number tokens index r t p :
  0 <= index ->
  Py.getitem tokens index = Some r -> kind r = return_kw ->
  Py.getitem tokens (index + 1) = Some t -> kind t <> number ->
  expect_return tokens index p
  = Some (Returned (None, 0),
          extend p [(error_at ("expected number, got '" ++ content t ++ "'") t,
                     index + 1)]).
Proof.
  intros Hi Er Hr Et Ht. apply getitem_Some_bound in Er as Hb.
  unfold expect_return, expect_expression, bind, subscript, ret.
  destruct (Z.gtb_spec (len tokens) index); [|lia].
  rewrite Er, Hr. cbn. rewrite Et.
  destruct (kind_eqb (kind t) number) eqn:E.
  - apply kind_eqb_true in E. contradiction.
  - unfold add_error, bind.
    now rewrite (make_error_GOT _ _ _ t) by (assumption || lia).
Qed.

Lemma expect_return_no_semicolon tokens index r n p :
  0 <= index ->
  Py.getitem tokens index = Some r -> kind r = return_kw ->
  Py.getitem tokens (index + 1) = Some n -> kind n = number ->
  (forall t, Py.getitem tokens (index + 1 + 1) = Some t -> kind t <> semicolon) ->
  expect_return tokens index p
  = Some (Returned (None, 0),
          extend p [(error_at ("expected semicolon after '" ++ content n ++ "'")
                              n, index + 1 + 1)]).
Proof.
  intros Hi Er Hr En Hn Hsc. apply getitem_Some_bound in Er as Hb.
  assert (make_error "expected semicolon" (index + 1 + 1) tokens AFTER p
          = Some (Returned (error_at ("expected semicolon after '"
                                        ++ content n ++ "'") n), p)) as Hmk.
  { refine (make_error_AFTER "expected semicolon" tokens (index + 1 + 1) n p
                              _ _); [lia|].
    now replace (index + 1 + 1 - 1) with (index + 1) by lia. }
  unfold expect_return, expect_expression, bind, subscript, ret.
  destruct (Z.gtb_spec (len tokens) index); [|lia].
  rewrite Er, Hr. cbn. rewrite En, Hn. cbn.
  destruct (Z.gtb_spec (len tokens) (index + 1 + 1)).
  - destruct (getitem_in_range tokens (index + 1 + 1)) as [t Et]; [lia|].
    rewrite Et. destruct (kind_eqb (kind t) semicolon) eqn:E.
    + apply kind_eqb_true in E. now apply Hsc in Et.
    + unfold add_error, bind. now rewrite Hmk.
  - unfold add_error, bind. now rewrite Hmk.
Qed.

Lemma expect_return_at_end tokens index last_token p :
  len tokens <= index ->
  Py.getitem tokens (len tokens - 1) = Some last_token ->
  expect_return tokens index p
  = Some (Returned (None, 0),
          extend p [(error_at ("expected return keyword after '"
                                 ++ content last_token ++ "'") last_token,
                     index)]).
Proof.
  intros Hi El. unfold expect_return, bind, ret.
  destruct (Z.gtb_spec (len tokens) index); [lia|].
  unfold add_error, bind.
  now rewrite (make_error_past_end "expected return keyword" tokens p index
                                   GOT last_token).
Qed.

Lemma body_fuel (head : list Token) (body : list Statement) (rest : list Token) :
  (List.length body
   < S (List.length (head ++ flat_map statement_tokens body ++ rest)))%nat.
Proof.
  apply Nat2Z.inj_lt. rewrite Nat2Z.inj_succ.
  fold (len body) (len (head ++ flat_map statement_tokens body ++ rest)).
  rewrite !len_app, len_flat_map_statements.
  pose proof (len_nonneg head). pose proof (len_nonneg rest).
  pose proof (len_nonneg body). lia.
Qed.

(** ** What [parse] reports for each way the program can go wrong *)

(** X4. After the header and any number of statements, a [return] token
    followed by a token that is not a number: [parse] raises "expected
    number, got '<text>'" about that token.  It holds on a parser whose
    log has no record beyond that token's index, a fresh one in particular;
    the log gains that error and then "expected closing brace". *)
Theorem parse_missing_number
        (head : list Token) (body : list Statement) (r t : Token)
        (rest : list Token) (p : Parser) :
  map kind head = kinds_before ->
  Forall statement_kinds body ->
  kind r = return_kw ->
  kind t <> number ->
  (forall rec, In rec (errors p) -> snd rec <= 5 + 3 * len body + 1) ->
  parse (head ++ flat_map statement_tokens body ++ r :: t :: rest) p
  = Some (Raised (SyntaxError
                    (mkCompilerError
                       ("expected number, got '" ++ content t ++ "'")
                       (Some (file_name t)) (Some (line_num t)))),
          extend p
            [(mkCompilerError ("expected number, got '" ++ content t ++ "'")
                (Some (file_name t)) (Some (line_num t)),
              5 + 3 * len body + 1);
             (mkCompilerError
                ("expected closing brace, got '" ++ content r ++ "'")
                (Some (file_name r)) (Some (line_num r)),
              5 + 3 * len body)]).
Proof.
  intros Hhead Hbody Hr Ht Hlog.
  pose proof (len_head head Hhead) as Hlen. pose proof (len_nonneg body).
  set (tokens := head ++ flat_map statement_tokens body ++ r :: t :: rest).
  assert (Py.getitem tokens (5 + 3 * len body) = Some r) as Er.
  { unfold tokens. rewrite (getitem_after_body head _ _ _ 0); [reflexivity|lia|].
    rewrite len_flat_map_statements. lia. }
  assert (Py.getitem tokens (5 + 3 * len body + 1) = Some t) as Et.
  { unfold tokens. rewrite (getitem_after_body head _ _ _ 1); [reflexivity|lia|].
    rewrite len_flat_map_statements. lia. }
  set (e_number := error_at ("expected number, got '" ++ content t ++ "'") t).
  set (e_brace := error_at ("expected closing brace, got '" ++ content r ++ "'")
                           r).
  assert (expect_main (S (List.length tokens)) tokens 0 p
          = Some (Returned (None, 0),
                  extend (extend p [(e_number, 5 + 3 * len body + 1)])
                         [(e_brace, 5 + 3 * len body)])) as Hmain.
  { unfold tokens.
    rewrite (expect_main_stops head body (r :: t :: rest) p
               (extend p [(e_number, 5 + 3 * len body + 1)])); try assumption.
    - fold tokens. apply add_error_appends.
      exact (make_error_GOT "expected closing brace" tokens
                            (5 + 3 * len body) r _ ltac:(lia) Er).
    - apply body_fuel.
    - fold tokens. rewrite expect_statement_as_return.
      exact (expect_return_no_number tokens (5 + 3 * len body) r t p
                                     ltac:(lia) Er Hr Et Ht).
    - intros t0 rest' [= <- _]. rewrite Hr. discriminate. }
  rewrite extend_extend in Hmain.
  apply (parse_raises tokens p _ 0 (errors p) e_number (5 + 3 * len body + 1)
                      [(e_brace, 5 + 3 * len body)] Hmain).
  - reflexivity.
  - exact Hlog.
  - intros rec [<-|[]]. cbn. lia.
Qed.

(** X3. After the header and any number of statements, a [return] token
    and a number token followed by a token that is not a semicolon, or by
    nothing: [parse] raises "expected semicolon after '<text>'" about the
    number token.  It holds on a parser whose log has no record beyond the
    index after the number, a fresh one in particular. *)
Theorem parse_missing_semicolon
        (head : list Token) (body : list Statement) (r n : Token)
        (rest : list Token) (p : Parser) :
  map kind head = kinds_before ->
  Forall statement_kinds body ->
  kind r = return_kw ->
  kind n = number ->
  (forall t rest', rest = t :: rest' -> kind t <> semicolon) ->
  (forall rec, In rec (errors p) -> snd rec <= 5 + 3 * len body + 2) ->
  parse (head ++ flat_map statement_tokens body ++ r :: n :: rest) p
  = Some (Raised (SyntaxError
                    (mkCompilerError
                       ("expected semicolon after '" ++ content n ++ "'")
                       (Some (file_name n)) (Some (line_num n)))),
          extend p
            [(mkCompilerError ("expected semicolon after '" ++ content n ++ "'")
                (Some (file_name n)) (Some (line_num n)),
              5 + 3 * len body + 2);
             (mkCompilerError
                ("expected closing brace, got '" ++ content r ++ "'")
                (Some (file_name r)) (Some (line_num r)),
              5 + 3 * len body)]).
Proof.
  intros Hhead Hbody Hr Hn Hrest Hlog.
  pose proof (len_head head Hhead) as Hlen. pose proof (len_nonneg body).
  set (tokens := head ++ flat_map statement_tokens body ++ r :: n :: rest).
  assert (forall k, 0 <= k ->
                    Py.getitem tokens (5 + 3 * len body + k)
                    = Py.getitem (r :: n :: rest) k) as Hget.
  { intros k Hk. unfold tokens. apply getitem_after_body; [assumption|].
    rewrite len_flat_map_statements. lia. }
  assert (Py.getitem tokens (5 + 3 * len body) = Some r) as Er.
  { replace (5 + 3 * len body) with (5 + 3 * len body + 0) by lia.
    now rewrite Hget. }
  assert (Py.getitem tokens (5 + 3 * len body + 1) = Some n) as En.
  { now rewrite Hget. }
  set (e_semicolon := error_at ("expected semicolon after '" ++ content n ++ "'")
                               n).
  set (e_brace := error_at ("expected closing brace, got '" ++ content r ++ "'")
                           r).
  assert (expect_main (S (List.length tokens)) tokens 0 p
          = Some (Returned (None, 0),
                  extend (extend p [(e_semicolon, 5 + 3 * len body + 2)])
                         [(e_brace, 5 + 3 * len body)])) as Hmain.
  { unfold tokens.
    rewrite (expect_main_stops head body (r :: n :: rest) p
               (extend p [(e_semicolon, 5 + 3 * len body + 2)]));
      try assumption.
    - fold tokens. apply add_error_appends.
      exact (make_error_GOT "expected closing brace" tokens
                            (5 + 3 * len body) r _ ltac:(lia) Er).
    - apply body_fuel.
    - fold tokens. rewrite expect_statement_as_return.
      replace (5 + 3 * len body + 2) with (5 + 3 * len body + 1 + 1) by lia.
      apply (expect_return_no_semicolon tokens (5 + 3 * len body) r n p);
        try assumption; [lia|].
      intros t Et.
      replace (5 + 3 * len body + 1 + 1) with (5 + 3 * len body + 2) in Et
        by lia.
      rewrite Hget in Et by lia.
      destruct rest as [|t0 rest']; [discriminate|].
      injection Et as <-. now apply (Hrest t0 rest').
    - intros t0 rest' [= <- _]. rewrite Hr. discriminate. }
  rewrite extend_extend in Hmain.
  apply (parse_raises tokens p _ 0 (errors p) e_semicolon (5 + 3 * len body + 2)
                      [(e_brace, 5 + 3 * len body)] Hmain).
  - reflexivity.
  - exact Hlog.
  - intros rec [<-|[]]. cbn. lia.
Qed.

(** X5. After the header and any number of statements, a token that is
    neither [return] nor the closing brace: two errors are recorded at its
    index, "expected return keyword" and then "expected closing brace",
    and [parse] raises the later one, "expected closing brace, got
    '<text>'".  It holds on a parser whose log has no record beyond that
    index, a fresh one in particular. *)
Theorem parse_missing_closing_brace
        (head : list Token) (body : list Statement) (t : Token)
        (rest : list Token) (p : Parser) :
  map kind head = kinds_before ->
  Forall statement_kinds body ->
  kind t <> return_kw ->
  kind t <> close_brack ->
  (forall rec, In rec (errors p) -> snd rec <= 5 + 3 * len body) ->
  parse (head ++ flat_map statement_tokens body ++ t :: rest) p
  = Some (Raised (SyntaxError
                    (mkCompilerError ("expected closing brace, got '"
                                 ++ content t ++ "'")
                       (Some (file_name t)) (Some (line_num t)))),
          extend p
            [(mkCompilerError
                ("expected return keyword, got '" ++ content t ++ "'")
                (Some (file_name t)) (Some (line_num t)),
              5 + 3 * len body);
             (mkCompilerError
                ("expected closing brace, got '" ++ content t ++ "'")
                (Some (file_name t)) (Some (line_num t)),
              5 + 3 * len body)]).
Proof.
  intros Hhead Hbody Hret Hclose Hlog.
  pose proof (len_head head Hhead) as Hlen. pose proof (len_nonneg body).
  set (tokens := head ++ flat_map statement_tokens body ++ t :: rest).
  assert (Py.getitem tokens (5 + 3 * len body) = Some t) as Et.
  { unfold tokens. rewrite (getitem_after_body head _ _ _ 0); [reflexivity|lia|].
    rewrite len_flat_map_statements. lia. }
  set (e_return := error_at ("expected return keyword, got '"
                               ++ content t ++ "'") t).
  set (e_brace := error_at ("expected closing brace, got '" ++ content t ++ "'")
                           t).
  assert (expect_main (S (List.length tokens)) tokens 0 p
          = Some (Returned (None, 0),
                  extend (extend p [(e_return, 5 + 3 * len body)])
                         [(e_brace, 5 + 3 * len body)])) as Hmain.
  { unfold tokens.
    rewrite (expect_main_stops head body (t :: rest) p
               (extend p [(e_return, 5 + 3 * len body)])); try assumption.
    - fold tokens. apply add_error_appends.
      exact (make_error_GOT "expected closing brace" tokens
                            (5 + 3 * len body) t _ ltac:(lia) Et).
    - apply body_fuel.
    - fold tokens. rewrite expect_statement_as_return.
      apply (expect_return_not_return tokens (5 + 3 * len body) t p);
        [lia | assumption..].
    - now intros t0 rest' [= <- _]. }
  rewrite extend_extend in Hmain.
  apply (parse_raises tokens p _ 0 (errors p ++ [(e_return, 5 + 3 * len body)])
                      e_brace (5 + 3 * len body) [] Hmain).
  - cbn [extend errors]. now rewrite <- app_assoc.
  - intros rec Hin. apply in_app_or in Hin as [Hin|[<-|[]]]; [auto | cbn; lia].
  - intros rec [].
Qed.

(** X6. The header and any number of statements and then nothing: both
    errors are phrased in the AFTER form about the last token, and [parse]
    raises "expected closing brace after '<text>'".  It holds on a parser
    whose log has no record beyond the number of tokens, a fresh one in
    particular. *)
Theorem parse_unclosed_at_end
        (head : list Token) (body : list Statement) (last_token : Token)
        (p : Parser) :
  map kind head = kinds_before ->
  Forall statement_kinds body ->
  Py.getitem (head ++ flat_map statement_tokens body)
             (len (head ++ flat_map statement_tokens body) - 1)
  = Some last_token ->
  (forall rec, In rec (errors p) -> snd rec <= 5 + 3 * len body) ->
  parse (head ++ flat_map statement_tokens body) p
  = Some (Raised (SyntaxError
                    (mkCompilerError ("expected closing brace after '"
                                 ++ content last_token ++ "'")
                       (Some (file_name last_token))
                       (Some (line_num last_token)))),
          extend p
            [(mkCompilerError ("expected return keyword after '"
                          ++ content last_token ++ "'")
                (Some (file_name last_token)) (Some (line_num last_token)),
              5 + 3 * len body);
             (mkCompilerError ("expected closing brace after '"
                          ++ content last_token ++ "'")
                (Some (file_name last_token)) (Some (line_num last_token)),
              5 + 3 * len body)]).
Proof.
  intros Hhead Hbody Elast Hlog.
  pose proof (len_head head Hhead) as Hlen. pose proof (len_nonneg body).
  rewrite <- (app_nil_r (flat_map statement_tokens body)) in *.
  set (tokens := head ++ flat_map statement_tokens body ++ []) in *.
  assert (len tokens = 5 + 3 * len body) as Htokens.
  { unfold tokens. rewrite !len_app, len_flat_map_statements, Hlen.
    change (len (@nil Token)) with 0. lia. }
  set (e_return := error_at ("expected return keyword after '"
                               ++ content last_token ++ "'") last_token).
  set (e_brace := error_at ("expected closing brace after '"
                              ++ content last_token ++ "'") last_token).
  assert (expect_main (S (List.length tokens)) tokens 0 p
          = Some (Returned (None, 0),
                  extend (extend p [(e_return, 5 + 3 * len body)])
                         [(e_brace, 5 + 3 * len body)])) as Hmain.
  { unfold tokens.
    rewrite (expect_main_stops head body [] p
               (extend p [(e_return, 5 + 3 * len body)])); try assumption.
    - fold tokens. apply add_error_appends.
      exact (make_error_past_end "expected closing brace" tokens _
                                 (5 + 3 * len body) GOT last_token
                                 ltac:(lia) Elast).
    - apply body_fuel.
    - fold tokens. rewrite expect_statement_as_return.
      apply (expect_return_at_end tokens (5 + 3 * len body) last_token p);
        [lia | assumption].
    - intros t0 rest' [=]. }
  rewrite extend_extend in Hmain.
  apply (parse_raises tokens p _ 0 (errors p ++ [(e_return, 5 + 3 * len body)])
                      e_brace (5 + 3 * len body) [] Hmain).
  - cbn [extend errors]. now rewrite <- app_assoc.
  - intros rec Hin. apply in_app_or in Hin as [Hin|[<-|[]]]; [auto | cbn; lia].
  - intros rec [].
Qed.

(** X1. When the tokens do not start with the five kinds of
    [int main ( ) {], too few tokens included, one error is recorded at
    index 0 and [parse] raises it: "expected main function starting at
    '<text>'" about the first token, or "expected main function starting
    at beginning of source" without file or line when there is no token.
    It holds on a parser whose log has no record beyond index 0, a fresh
    one in particular. *)
Theorem parse_bad_header (tokens : list Token) (p : Parser) :
  ~ kinds_match tokens kinds_before ->
  (forall rec, In rec (errors p) -> snd rec <= 0) ->
  exists e,
    parse tokens p = Some (Raised (SyntaxError e), extend p [(e, 0)])
    /\ match tokens with
       | [] =>
           e = mkCompilerError
                 "expected main function starting at beginning of source"
                 None None
       | t :: _ =>
           e = mkCompilerError ("expected main function starting at '"
                           ++ content t ++ "'")
                 (Some (file_name t)) (Some (line_num t))
       end.
Proof.
  intros Hno Hlog.
  assert (forall e,
             make_error "expected main function starting" 0 tokens AT p
             = Some (Returned e, p) ->
             parse tokens p = Some (Raised (SyntaxError e), extend p [(e, 0)]))
    as Hparse.
  { intros e He.
    apply (parse_raises tokens p _ 0 (errors p) e 0 []).
    - unfold expect_main. fold kinds_before.
      change (Py.slice_from tokens 0) with tokens.
      destruct (match_tokens_mismatch _ _ Hno) as [E|E]; rewrite E; cbn;
        now apply add_error_appends.
    - reflexivity.
    - exact Hlog.
    - intros rec []. }
  destruct tokens as [|t rest].
  - eexists. split; [apply Hparse|]; reflexivity.
  - eexists. split; [apply Hparse|reflexivity].
    exact (make_error_AT "expected main function starting" (t :: rest) 0 t p
                         ltac:(lia) eq_refl).
Qed.

(** ** Only sequences of the grammar are accepted *)

Lemma skipn_cons_nth {A : Type} (l : list A) : forall k a,
  nth_error l k = Some a -> skipn k l = a :: skipn (S k) l.
Proof.
  induction l as [|x l IH]; intros [|k] a E; try discriminate.
  - injection E as ->. reflexivity.
  - cbn [skipn]. rewrite (IH k a E). reflexivity.
Qed.

Lemma skipn_getitem {A : Type} (l : list A) (i : Z) (a : A) :
  0 <= i -> Py.getitem l i = Some a ->
  skipn (Z.to_nat i) l = a :: skipn (Z.to_nat (i + 1)) l.
Proof.
  intros Hi E. rewrite getitem_nonneg in E by assumption.
  rewrite (skipn_cons_nth l _ a E). do 2 f_equal. lia.
Qed.

(** What the loop returns is what it read: the tokens from its start
    index up to the index it hands back are statements of the grammar, and
    the nodes added are their nodes. *)
Lemma statement_loop_reads tokens : forall fuel index nodes p nodes' index' p',
  0 <= index ->
  statement_loop fuel tokens index nodes p
  = Some (Returned (nodes', index'), p') ->
  exists body,
    Forall statement_kinds body
    /\ nodes' = nodes ++ map statement_node body
    /\ index' = index + 3 * len body
    /\ skipn (Z.to_nat index) tokens
       = flat_map statement_tokens body ++ skipn (Z.to_nat index') tokens.
Proof.
  induction fuel as [|fuel IH]; intros index nodes p nodes' index' p' Hi H;
    [discriminate|].
  cbn [statement_loop] in H. unfold bind in H.
  destruct (expect_statement tokens index p) as [[[[[node|] i1]|e] q]|] eqn:E;
    try discriminate.
  - destruct (runs_inv _ _ _ _ _ (expect_statement_runs tokens index p) E)
      as (ex & _ & _ & -> & _ & r & n & sc & Er & Hr & En & Hn & Esc & Hsc & ->).
    apply IH in H as (body & Hbody & -> & -> & Hskip); [|lia].
    exists ((r, n, sc) :: body). split; [|split; [|split]].
    + constructor; [now cbn | assumption].
    + cbn [map statement_node]. now rewrite <- app_assoc.
    + rewrite len_cons. lia.
    + cbn [flat_map statement_tokens app].
      rewrite (skipn_getitem tokens index r Hi Er).
      rewrite (skipn_getitem tokens (index + 1) n ltac:(lia) En).
      replace (index + 1 + 1) with (index + 2) by lia.
      rewrite (skipn_getitem tokens (index + 2) sc ltac:(lia) Esc).
      replace (index + 2 + 1) with (index + 3) by lia.
      now rewrite Hskip.
  - injection H as <- <- <-. exists []. cbn [map flat_map app].
    rewrite app_nil_r. change (len (@nil Statement)) with 0.
    split; [constructor|]. split; [reflexivity|]. split; [lia|].
    now replace (index + 3 * 0) with index by lia.
Qed.

Lemma kinds_match_firstn kinds : forall tokens,
  kinds_match tokens kinds ->
  map kind (firstn (List.length kinds) tokens) = kinds.
Proof.
  induction kinds as [|k kinds IH]; intros tokens [Hlen Hk]; [reflexivity|].
  destruct tokens as [|t tokens]; cbn in Hlen; [lia|].
  cbn [List.length firstn map].
  destruct (Hk 0%nat k eq_refl) as (t' & [= <-] & ->).
  f_equal. apply IH. split; [lia|].
  intros i k' Ek. apply (Hk (S i) k' Ek).
Qed.

Lemma add_error_no_node message index tokens message_type p node j q :
  add_error message index tokens message_type p
  <> Some (Returned (Some node, j), q).
Proof.
  unfold add_error, bind, append_error, ret.
  destruct (make_error message index tokens message_type p)
    as [[[e|e] p1]|]; discriminate.
Qed.

Lemma expect_main_reads tokens fuel p node index p' :
  expect_main fuel tokens 0 p = Some (Returned (Some node, index), p') ->
  exists head body closing rest,
    tokens = head ++ flat_map statement_tokens body ++ closing :: rest
    /\ map kind head = kinds_before
    /\ Forall statement_kinds body
    /\ kind closing = close_brack
    /\ node = MainNode (map statement_node body)
    /\ index = 5 + 3 * len body + 1.
Proof.
  unfold expect_main. fold kinds_before.
  change (Py.slice_from tokens 0) with tokens.
  destruct (Py.truthy (match_tokens tokens kinds_before)) eqn:Et.
  2:{ intros H. now apply add_error_no_node in H. }
  apply match_tokens_truthy in Et as (Hmatch & _ & ->).
  change (len kinds_before) with 5. unfold bind at 1.
  destruct (statement_loop fuel tokens (0 + 5) [] p)
    as [[[[nodes i]|e] q]|] eqn:El; try discriminate.
  apply statement_loop_reads in El as (body & Hbody & -> & -> & Hskip); [|lia].
  pose proof (len_nonneg body) as Hnn.
  unfold bind at 1.
  assert (forall closing,
             Py.getitem tokens (0 + 5 + 3 * len body) = Some closing ->
             kind closing = close_brack ->
             tokens = firstn 5 tokens ++ flat_map statement_tokens body
                        ++ closing :: skipn (Z.to_nat (0 + 5 + 3 * len body + 1))
                                            tokens) as Hsplit.
  { intros closing Ec _.
    rewrite <- (skipn_getitem tokens (0 + 5 + 3 * len body) closing
                               ltac:(lia) Ec), <- Hskip.
    symmetry. apply (firstn_skipn 5). }
  destruct (len tokens >? 0 + 5 + 3 * len body).
  - unfold subscript, bind at 1.
    destruct (Py.getitem tokens (0 + 5 + 3 * len body)) as [closing|] eqn:Ec;
      [|discriminate].
    unfold ret at 1.
    destruct (kind_eqb (kind closing) close_brack) eqn:Ek.
    + intros [= <- <- <-]. apply kind_eqb_true in Ek.
      exists (firstn 5 tokens), body, closing,
        (skipn (Z.to_nat (0 + 5 + 3 * len body + 1)) tokens).
      split; [now apply Hsplit|].
      split; [exact (kinds_match_firstn kinds_before tokens Hmatch)|].
      repeat split; try assumption; lia.
    + intros H. now apply add_error_no_node in H.
  - unfold ret at 1. intros H. now apply add_error_no_node in H.
Qed.

(** X2. [parse] returns a node only for a sequence of the grammar: if it
    returns, the tokens are five tokens of the kinds [int main ( ) {],
    statements each made of a [return], a number and a semicolon token,
    and one closing brace, with nothing after it, and the node returned is
    the [MainNode] of the statements' nodes. *)
Theorem parse_accepts_only_grammar
        (tokens : list Token) (p p' : Parser) (node : Node) :
  parse tokens p = Some (Returned node, p') ->
  exists head body closing,
    tokens = program_tokens head body closing
    /\ map kind head = kinds_before
    /\ Forall statement_kinds body
    /\ kind closing = close_brack
    /\ node = MainNode (map statement_node body)
    /\ len tokens = 6 + 3 * len body.
Proof.
  unfold parse, parse_fuel. unfold bind at 1.
  destruct (expect_main (S (List.length tokens)) tokens 0 p)
    as [[[[[root|] index]|e] q]|] eqn:E; try discriminate.
  2:{ unfold bind, get_errors, subscript, raise.
      destruct (Py.getitem _ _); discriminate. }
  apply expect_main_reads in E
    as (head & body & closing & rest & Etok & Hhead & Hbody & Hclosing & -> & ->).
  pose proof (len_head head Hhead) as Hlen. pose proof (len_nonneg body).
  assert (len tokens = 5 + 3 * len body + 1 + len rest) as Htokens.
  { rewrite Etok, !len_app, len_flat_map_statements, len_cons. lia. }
  destruct (Py.slice_from tokens (5 + 3 * len body + 1)) eqn:Eslice.
  - intros [= <- <-].
    apply slice_from_nil_iff in Eslice; [|lia].
    assert (rest = []) as ->.
    { pose proof (len_nonneg rest). destruct rest; [reflexivity|].
      rewrite len_cons in Htokens. pose proof (len_nonneg rest). lia. }
    exists head, body, closing. change (len (@nil Token)) with 0 in Htokens.
    repeat split; try assumption; lia.
  - unfold bind, raise.
    destruct (make_error _ _ _ _ _) as [[[e|e] q']|]; discriminate.
Qed.

(** [int main ( ) { return 4 ; }] is accepted, so it is of the grammar. *)
Lemma parse_accepts_only_grammar_witness :
  exists head body closing,
    tokens_return_4 = program_tokens head body closing
    /\ map kind head = kinds_before
    /\ Forall statement_kinds body
    /\ kind closing = close_brack
    /\ MainNode [ReturnNode (NumberNode (tk number "4"))]
       = MainNode (map statement_node body)
    /\ len tokens_return_4 = 6 + 3 * len body.
Proof.
  apply (parse_accepts_only_grammar tokens_return_4 Parser_init
           {| errors := [(error_at "expected return keyword, got '}'"
                                   (tk close_brack "}"), 8)] |}).
  reflexivity.
Defined.

(** ** The tokens stop after [return] *)

Lemma statement_loop_prefix_raise : forall body before rest nodes p q e fuel,
  Forall statement_kinds body ->
  (List.length body < fuel)%nat ->
  expect_statement (before ++ flat_map statement_tokens body ++ rest)
                   (len before + 3 * len body) p
  = Some (Raised e, q) ->
  statement_loop fuel (before ++ flat_map statement_tokens body ++ rest)
                 (len before) nodes p
  = Some (Raised e, q).
Proof.
  induction body as [|[[r n] sc] body IH];
    intros before rest nodes p q e [|fuel] Hkinds Hfuel Hstop;
    cbn [List.length] in Hfuel; try lia.
  - cbn [flat_map app statement_loop map] in *. unfold bind.
    change (len (@nil Statement)) with 0 in *.
    replace (len before + 3 * 0) with (len before) in * by lia.
    now rewrite Hstop.
  - apply Forall_cons_iff in Hkinds as [(Hr & Hn & Hsc) Hkinds].
    cbn [flat_map statement_tokens app statement_loop map] in *.
    unfold bind. rewrite expect_statement_as_return.
    rewrite (expect_return_ok _ _ r n sc); try assumption.
    + specialize (IH (before ++ [r; n; sc]) rest
                     (nodes ++ [ReturnNode (NumberNode n)]) p q e fuel
                     Hkinds ltac:(lia)).
      rewrite <- app_assoc in IH. cbn [app] in IH.
      rewrite len_app, !len_cons in IH. change (len (@nil Token)) with 0 in IH.
      rewrite len_cons in Hstop.
      replace (len before + (1 + (1 + (1 + 0))) + 3 * len body)
        with (len before + 3 * (1 + len body)) in IH by lia.
      replace (len before + (1 + (1 + (1 + 0)))) with (len before + 1 + 1 + 1)
        in IH by lia.
      exact (IH Hstop).
    + now apply getitem_middle.
    + change (before ++ r :: n :: sc :: ?l) with (before ++ [r] ++ n :: sc :: l).
      rewrite app_assoc. apply getitem_middle.
      rewrite len_app, len_cons. reflexivity.
    + change (before ++ r :: n :: sc :: ?l) with (before ++ [r; n] ++ sc :: l).
      rewrite app_assoc. apply getitem_middle.
      rewrite len_app, !len_cons. change (len (@nil Token)) with 0. lia.
Qed.

(** X7. After the header and any number of statements, a [return] token
    and then nothing: the expression matcher subscripts the token list one
    past its end, and IndexError leaves [parse], whatever the state of the
    parser; nothing is recorded. *)
Theorem parse_cut_after_return
        (head : list Token) (body : list Statement) (r : Token) (p : Parser) :
  map kind head = kinds_before ->
  Forall statement_kinds body ->
  kind r = return_kw ->
  parse (head ++ flat_map statement_tokens body ++ [r]) p
  = Some (Raised IndexError, p).
Proof.
  intros Hhead Hbody Hr.
  pose proof (len_head head Hhead) as Hlen. pose proof (len_nonneg body).
  set (tokens := head ++ flat_map statement_tokens body ++ [r]).
  assert (len tokens = 5 + 3 * len body + 1) as Htokens.
  { unfold tokens. rewrite !len_app, len_flat_map_statements, len_cons, Hlen.
    change (len (@nil Token)) with 0. lia. }
  assert (Py.getitem tokens (5 + 3 * len body) = Some r) as Er.
  { unfold tokens. rewrite (getitem_after_body head _ _ _ 0); [reflexivity|lia|].
    rewrite len_flat_map_statements. lia. }
  assert (expect_statement tokens (len head + 3 * len body) p
          = Some (Raised IndexError, p)) as Hstop.
  { rewrite Hlen, expect_statement_as_return.
    unfold expect_return, expect_expression, bind, subscript, ret, raise.
    destruct (Z.gtb_spec (len tokens) (5 + 3 * len body)); [|lia].
    rewrite Er, Hr. cbn. now rewrite getitem_past_end by lia. }
  unfold parse, parse_fuel, expect_main. fold kinds_before.
  change (Py.slice_from tokens 0) with tokens.
  rewrite (match_tokens_match tokens kinds_before)
    by now apply header_kinds_match.
  change (Py.truthy (Py.Int (len kinds_before))) with true.
  change (Py.int_of (Py.Int (len kinds_before))) with 5.
  cbv iota. unfold bind at 1. unfold bind at 1.
  replace (0 + 5) with (len head) by lia.
  unfold tokens at 2 3.
  rewrite (statement_loop_prefix_raise body head [r] [] p p IndexError);
    [reflexivity | assumption | apply body_fuel | exact Hstop].
Qed.

(** [int main ( ) { return]: a header, no statement, a [return] token. *)
Lemma parse_cut_after_return_witness :
  parse tokens_cut_after_return Parser_init = Some (Raised IndexError, Parser_init).
Proof.
  apply (parse_cut_after_return header [] (tk return_kw "return") Parser_init).
  - reflexivity.
  - constructor.
  - reflexivity.
Defined.

(** [int main ( ) { return ; }]: the token after [return] is a semicolon. *)
Lemma parse_missing_number_witness :
  parse tokens_return_nothing Parser_init
  = Some (Raised (SyntaxError
                    (mkCompilerError "expected number, got ';'"
                                     (Some "main.c"%string) (Some 1))),
          {| errors :=
               [(mkCompilerError "expected number, got ';'"
                                 (Some "main.c"%string) (Some 1), 6);
                (mkCompilerError "expected closing brace, got 'return'"
                                 (Some "main.c"%string) (Some 1), 5)] |}).
Proof.
  apply (parse_missing_number header [] (tk return_kw "return")
           (tk semicolon ";") [tk close_brack "}"] Parser_init).
  - reflexivity.
  - constructor.
  - reflexivity.
  - discriminate.
  - intros rec [].
Defined.

(** [int main ( ) { return 4 }]: the closing brace comes where the
    semicolon should. *)
Lemma parse_missing_semicolon_witness :
  parse (header ++ [tk return_kw "return"; tk number "4"; tk close_brack "}"])
        Parser_init
  = Some (Raised (SyntaxError (mkCompilerError "expected semicolon after '4'"
                                 (Some "main.c"%string) (Some 1))),
          {| errors :=
               [(mkCompilerError "expected semicolon after '4'"
                   (Some "main.c"%string) (Some 1), 7);
                (mkCompilerError "expected closing brace, got 'return'"
                   (Some "main.c"%string) (Some 1), 5)] |}).
Proof.
  apply (parse_missing_semicolon header [] (tk return_kw "return")
           (tk number "4") [tk close_brack "}"] Parser_init).
  - reflexivity.
  - constructor.
  - reflexivity.
  - reflexivity.
  - intros t rest' [= <- _]. discriminate.
  - intros rec [].
Defined.

(** [int main ( ) { 4]: a number where a statement or the brace should be. *)
Lemma parse_missing_closing_brace_witness :
  parse (header ++ [tk number "4"]) Parser_init
  = Some (Raised (SyntaxError (mkCompilerError "expected closing brace, got '4'"
                                 (Some "main.c"%string) (Some 1))),
          {| errors :=
               [(mkCompilerError "expected return keyword, got '4'"
                   (Some "main.c"%string) (Some 1), 5);
                (mkCompilerError "expected closing brace, got '4'"
                   (Some "main.c"%string) (Some 1), 5)]
          |}).
Proof.
  apply (parse_missing_closing_brace header [] (tk number "4") [] Parser_init).
  - reflexivity.
  - constructor.
  - discriminate.
  - discriminate.
  - intros rec [].
Defined.

(** [int main ( ) {] and nothing more. *)
Lemma parse_unclosed_at_end_witness :
  parse header Parser_init
  = Some (Raised (SyntaxError
                    (mkCompilerError "expected closing brace after '{'"
                                     (Some "main.c"%string) (Some 1))),
          {| errors :=
               [(mkCompilerError "expected return keyword after '{'"
                   (Some "main.c"%string) (Some 1), 5);
                (mkCompilerError "expected closing brace after '{'"
                   (Some "main.c"%string) (Some 1), 5)] |}).
Proof.
  apply (parse_unclosed_at_end header [] (tk open_brack "{") Parser_init).
  - reflexivity.
  - constructor.
  - reflexivity.
  - intros rec [].
Defined.

(** The one token [extra], and no token at all. *)
Lemma parse_bad_header_witness :
  (exists e,
      parse tokens_only_extra Parser_init
      = Some (Raised (SyntaxError e), {| errors := [(e, 0)] |})
      /\ e = mkCompilerError "expected main function starting at 'extra'"
                             (Some "main.c"%string) (Some 1))
  /\ (exists e,
         parse [] Parser_init
         = Some (Raised (SyntaxError e), {| errors := [(e, 0)] |})
         /\ e = mkCompilerError
                  "expected main function starting at beginning of source"
                  None None).
Proof.
  split.
  - apply (parse_bad_header tokens_only_extra Parser_init).
    + intros [Hlen _]. cbn in Hlen. lia.
    + intros rec [].
  - apply (parse_bad_header [] Parser_init).
    + intros [Hlen _]. cbn in Hlen. lia.
    + intros rec [].
Defined.

(** ** The records the matchers leave *)

Lemma return_failure_index tokens index e j :
  return_failure tokens index (e, j) -> index <= j <= index + 2.
Proof. intros [[-> _]|[[-> _]|[-> _]]]; lia. Qed.

(** X8. The expression, return and statement matchers record nothing
    when they succeed or when IndexError is raised, and exactly one error,
    at an index from their start index to two beyond it, when they fail
    with the pair (None, 0); a failure of the expression matcher inside
    the return matcher is not recorded a second time. *)
Theorem matchers_record_once
        (tokens : list Token) (index : Z) (p p' : Parser)
        (o : outcome (option Node * Z)) :
  (expect_expression tokens index p = Some (o, p') ->
   one_record_on_failure index p o p')
  /\ (expect_return tokens index p = Some (o, p') ->
      one_record_on_failure index p o p')
  /\ (expect_statement tokens index p = Some (o, p') ->
      one_record_on_failure index p o p').
Proof.
  assert (forall ex, return_post tokens index o ex ->
                     one_record_on_failure index p o (extend p ex)) as Hret.
  { intros ex. destruct o as [[[node|] i]|e]; cbn.
    - intros (-> & _). apply extend_nil.
    - intros (-> & _ & [e j] & -> & Hfail). split; [reflexivity|].
      exists e, j. split; [reflexivity|].
      now apply return_failure_index in Hfail.
    - intros (-> & -> & _). split; [reflexivity | apply extend_nil]. }
  split; [|split]; intros H.
  - destruct (runs_inv _ _ _ _ _ (expect_expression_runs tokens index p) H)
      as (ex & -> & Hpost).
    destruct o as [[[node|] i]|e]; cbn in *.
    + destruct Hpost as (-> & _). apply extend_nil.
    + destruct Hpost as (-> & t & e & _ & _ & -> & _). split; [reflexivity|].
      exists e, index. split; [reflexivity | lia].
    + destruct Hpost as (-> & -> & _). split; [reflexivity | apply extend_nil].
  - destruct (runs_inv _ _ _ _ _ (expect_return_runs tokens index p) H)
      as (ex & -> & Hpost). now apply Hret.
  - destruct (runs_inv _ _ _ _ _ (expect_statement_runs tokens index p) H)
      as (ex & -> & Hpost). now apply Hret.
Qed.

(** On [int main ( ) { return ; }] the return matcher started at 5 fails
    with one record, at 6. *)
Lemma matchers_record_once_witness :
  one_record_on_failure 5 Parser_init (Returned (None, 0))
                        {| errors := [(expected_number_error, 6)] |}.
Proof.
  apply (proj1 (proj2 (matchers_record_once tokens_return_nothing 5 Parser_init
                         {| errors := [(expected_number_error, 6)] |}
                         (Returned (None, 0))))).
  reflexivity.
Defined.

(** X9. When the statement loop returns, the index it hands back is its
    start index plus three for each node it added, never the 0 of the
    failed attempt that ended it; the nodes it was given are kept in
    front; and the log has gained exactly one record, that of the failed
    attempt, at an index from the one handed back to two beyond it. *)
Theorem statement_loop_rewinds
        (fuel : nat) (tokens : list Token) (index : Z) (nodes nodes' : list Node)
        (index' : Z) (p p' : Parser) :
  statement_loop fuel tokens index nodes p
  = Some (Returned (nodes', index'), p') ->
  exists more e j,
    nodes' = nodes ++ more
    /\ index' = index + 3 * len more
    /\ errors p' = errors p ++ [(e, j)]
    /\ index' <= j <= index' + 2.
Proof.
  intros H.
  destruct (statement_loop_inv _ _ _ _ _ _ _ H)
    as (ex & -> & _ & _ & (more & -> & ->) & [e j] & -> & Hfail).
  exists more, e, j. repeat split; try reflexivity;
    now apply return_failure_index in Hfail.
Qed.

(** On [int main ( ) { return 4 ; }] the loop started at 5 reads one
    statement and stops at the brace, index 8. *)
Lemma statement_loop_rewinds_witness :
  exists more e j,
    [ReturnNode (NumberNode (tk number "4"))] = [] ++ more
    /\ 8 = 5 + 3 * len more
    /\ [(error_at "expected return keyword, got '}'" (tk close_brack "}"), 8)]
       = [] ++ [(e, j)]
    /\ 8 <= j <= 8 + 2.
Proof.
  apply (statement_loop_rewinds 2 tokens_return_4 5 []
           [ReturnNode (NumberNode (tk number "4"))] 8 Parser_init
           {| errors := [(error_at "expected return keyword, got '}'"
                                   (tk close_brack "}"), 8)] |}).
  reflexivity.
Defined.

(** ** A style that is none of the three *)

(** X10. With a message type other than AT, GOT and AFTER, on tokens
    that are there and an index short of their end, [make_error] raises
    ValueError "Unknown error message type", and [add_error] lets it
    pass and records nothing.  (On no tokens, or with an index at or
    beyond the end, the message type is not looked at.) *)
Theorem make_error_unknown_style
        (message : string) (index : Z) (tokens : list Token)
        (message_type : Z) (p : Parser) :
  ~ valid_style message_type ->
  tokens <> [] ->
  index < len tokens ->
  make_error message index tokens message_type p
  = Some (Raised (ValueError "Unknown error message type"), p)
  /\ add_error message index tokens message_type p
     = Some (Raised (ValueError "Unknown error message type"), p).
Proof.
  intros Hmt Hne Hi.
  assert (make_error message index tokens message_type p
          = Some (Raised (ValueError "Unknown error message type"), p)) as E.
  { unfold make_error.
    assert (0 < len tokens).
    { destruct tokens; [congruence|]. rewrite len_cons.
      pose proof (len_nonneg tokens). lia. }
    unfold valid_style in Hmt.
    assert ((message_type =? AT) = false) as E1 by (apply Z.eqb_neq; tauto).
    assert ((message_type =? GOT) = false) as E2 by (apply Z.eqb_neq; tauto).
    assert ((message_type =? AFTER) = false) as E3 by (apply Z.eqb_neq; tauto).
    destruct (Z.eqb_spec (len tokens) 0); [lia|].
    destruct (Z.geb_spec index (len tokens)); [lia|].
    destruct (Z.leb_spec index 0); rewrite ?E3; cbv iota;
      now rewrite E1, E2, ?E3. }
  split; [exact E|]. unfold add_error, bind. now rewrite E.
Qed.

(** Message type 7 on [int main ( ) { return 4 ; }] at index 5. *)
Lemma make_error_unknown_style_witness :
  make_error "expected semicolon" 5 tokens_return_4 7 Parser_init
  = Some (Raised (ValueError "Unknown error message type"), Parser_init)
  /\ add_error "expected semicolon" 5 tokens_return_4 7 Parser_init
     = Some (Raised (ValueError "Unknown error message type"), Parser_init).
Proof.
  apply (make_error_unknown_style "expected semicolon" 5 tokens_return_4 7
           Parser_init).
  - unfold valid_style, AT, GOT, AFTER. lia.
  - discriminate.
  - reflexivity.
Defined.

(** ** Where a raised error points *)

Lemma getitem_In {A : Type} (l : list A) (i : Z) (a : A) :
  Py.getitem l i = Some a -> In a l.
Proof.
  unfold Py.getitem.
  destruct (0 <=? i); [apply nth_error_In|].
  destruct (- Z.of_nat (List.length l) <=? i); [apply nth_error_In | discriminate].
Qed.

Lemma make_error_located message index tokens message_type p e q :
  tokens <> [] ->
  make_error message index tokens message_type p = Some (Returned e, q) ->
  located tokens e.
Proof.
  intros Hne. unfold make_error, bind, subscript, ret, raise.
  destruct (Z.eqb_spec (len tokens) 0) as [E|_].
  { destruct tokens; [congruence|]. rewrite len_cons in E.
    pose proof (len_nonneg tokens). lia. }
  repeat match goal with
         | |- context [if ?b then _ else _] => destruct b
         end;
    try discriminate;
    match goal with
    | |- context [match Py.getitem ?l ?i with _ => _ end] =>
        destruct (Py.getitem l i) as [t|] eqn:Et; [|discriminate]
    end;
    intros [= <- _]; apply getitem_In in Et; exists t, message;
      (split; [assumption|]);
      first [ left; reflexivity
            | right; left; reflexivity
            | right; right; reflexivity ].
Qed.

Lemma error_of_located message index tokens message_type e :
  tokens <> [] -> error_of message index tokens message_type e ->
  located tokens e.
Proof.
  intros Hne He. exact (make_error_located _ _ _ _ _ _ _ Hne (He Parser_init)).
Qed.

Lemma return_failure_located tokens index r :
  tokens <> [] -> return_failure tokens index r -> located tokens (fst r).
Proof.
  intros Hne. destruct r as [e j]. cbn.
  intros [[_ He]|[[_ He]|[_ He]]]; now apply error_of_located in He.
Qed.

Lemma main_failure_located tokens index ex :
  tokens <> [] -> main_failure tokens index ex ->
  forall rec, In rec ex -> located tokens (fst rec).
Proof.
  intros Hne [(e & -> & He & _) | (r & e & j & -> & Hr & He & _)] rec Hin.
  - destruct Hin as [<-|[]]. now apply error_of_located in He.
  - destruct Hin as [<-|[<-|[]]].
    + now apply return_failure_located in Hr.
    + now apply error_of_located in He.
Qed.

(** X11. On tokens that are there, a syntax error raised by [parse]
    quotes one of the tokens: its description is a message followed by
    " at '<text>'", ", got '<text>'" or " after '<text>'" with the text of
    a token of the list, and its file name and line are those of that
    same token, provided the errors already in the log are of that form
    (none, on a fresh parser).  Only on an empty token list is an error
    without file and line raised. *)
Theorem parse_error_located
        (tokens : list Token) (p p' : Parser) (e : CompilerError) :
  tokens <> [] ->
  (forall rec, In rec (errors p) -> located tokens (fst rec)) ->
  parse tokens p = Some (Raised (SyntaxError e), p') ->
  exists t message,
    In t tokens
    /\ (e = mkCompilerError (message ++ " at '" ++ content t ++ "'")
                            (Some (file_name t)) (Some (line_num t))
        \/ e = mkCompilerError (message ++ ", got '" ++ content t ++ "'")
                               (Some (file_name t)) (Some (line_num t))
        \/ e = mkCompilerError (message ++ " after '" ++ content t ++ "'")
                               (Some (file_name t)) (Some (line_num t))).
Proof.
  intros Hne Hlog H.
  destruct (parse_fuel_inv _ _ _ _ _ H) as (ex & -> & Hpost). cbn in Hpost.
  destruct Hpost as [(Hfail & j & before & after & El & _)
                    | (index & t & _ & Et & -> & _)].
  - assert (In (e, j) (errors p ++ ex)) as Hin.
    { rewrite El. apply in_or_app. right. now left. }
    apply in_app_or in Hin as [Hin|Hin].
    + exact (Hlog _ Hin).
    + exact (main_failure_located _ _ _ Hne Hfail _ Hin).
  - apply getitem_In in Et. exists t, "unexpected token".
    split; [assumption | left; reflexivity].
Qed.

(** The error raised on [int main ( ) { return ; }] quotes a token of
    the list (the semicolon, in the GOT phrasing). *)
Lemma parse_error_located_witness :
  exists t message,
    In t tokens_return_nothing
    /\ (mkCompilerError "expected number, got ';'"
                        (Some "main.c"%string) (Some 1)
        = mkCompilerError (message ++ " at '" ++ content t ++ "'")
                          (Some (file_name t)) (Some (line_num t))
        \/ mkCompilerError "expected number, got ';'"
                           (Some "main.c"%string) (Some 1)
           = mkCompilerError (message ++ ", got '" ++ content t ++ "'")
                             (Some (file_name t)) (Some (line_num t))
        \/ mkCompilerError "expected number, got ';'"
                           (Some "main.c"%string) (Some 1)
           = mkCompilerError (message ++ " after '" ++ content t ++ "'")
                             (Some (file_name t)) (Some (line_num t))).
Proof.
  apply (parse_error_located tokens_return_nothing Parser_init
           {| errors := log_return_nothing |}
           (mkCompilerError "expected number, got ';'"
                            (Some "main.c"%string) (Some 1))).
  - discriminate.
  - intros rec [].
  - reflexivity.
Defined.

(** ** Tokens beyond the expected kinds *)

Lemma combine_app_enough {A B : Type} (ks : list A) : forall (l extra : list B),
  (List.length ks <= List.length l)%nat ->
  combine ks (l ++ extra) = combine ks l.
Proof.
  induction ks as [|k ks IH]; intros [|x l] extra Hlen; cbn in *;
    try reflexivity; try lia.
  f_equal. apply IH. lia.
Qed.

(** X12. [match_tokens] looks at no token beyond the expected kinds:
    tokens appended to a slice that has at least as many tokens as there
    are expected kinds do not change what it returns. *)
Theorem match_tokens_ignores_rest
        (tokens extra : list Token) (kinds_expected : list TokenKind) :
  (List.length kinds_expected <= List.length tokens)%nat ->
  match_tokens (tokens ++ extra) kinds_expected
  = match_tokens tokens kinds_expected.
Proof.
  intros Hlen. unfold match_tokens.
  rewrite combine_app_enough by assumption.
  rewrite len_app. pose proof (len_nonneg extra).
  destruct (Z.ltb_spec (len tokens) (len kinds_expected));
    [unfold len in *; lia|].
  destruct (Z.ltb_spec (len tokens + len extra) (len kinds_expected));
    [lia | reflexivity].
Qed.

(** The header matches, with or without the rest of the program. *)
Lemma match_tokens_ignores_rest_witness :
  match_tokens tokens_return_4 kinds_before = match_tokens header kinds_before.
Proof.
  apply (match_tokens_ignores_rest header
           [tk return_kw "return"; tk number "4"; tk semicolon ";";
            tk close_brack "}"] kinds_before).
  cbn. lia.
Defined.

(** ** A program and then more tokens *)

(** X13. A sequence of the grammar followed by at least one more token:
    [parse] raises "unexpected token at '<text>'" about the first token
    after the closing brace, with that token's file name and line,
    whatever the state of the parser; the log gains the one record of
    the statement attempt that failed at the closing brace. *)
Theorem parse_trailing_token
        (head : list Token) (body : list Statement) (closing t : Token)
        (rest : list Token) (p : Parser) :
  map kind head = kinds_before ->
  Forall statement_kinds body ->
  kind closing = close_brack ->
  parse (program_tokens head body closing ++ t :: rest) p
  = Some (Raised (SyntaxError
                    (mkCompilerError
                       ("unexpected token at '" ++ content t ++ "'")
                       (Some (file_name t)) (Some (line_num t)))),
          extend p [(error_at ("expected return keyword, got '"
                                 ++ content closing ++ "'") closing,
                     5 + 3 * len body)]).
Proof.
  intros Hhead Hbody Hclosing.
  pose proof (len_head head Hhead) as Hlen. pose proof (len_nonneg body).
  unfold program_tokens. rewrite <- !app_assoc. cbn [app].
  set (tokens := head ++ flat_map statement_tokens body ++ closing :: t :: rest).
  assert (forall k, 0 <= k ->
                    Py.getitem tokens (5 + 3 * len body + k)
                    = Py.getitem (closing :: t :: rest) k) as Hget.
  { intros k Hk. unfold tokens. apply getitem_after_body; [assumption|].
    rewrite len_flat_map_statements. lia. }
  assert (Py.getitem tokens (5 + 3 * len body) = Some closing) as Ec.
  { replace (5 + 3 * len body) with (5 + 3 * len body + 0) by lia.
    now rewrite Hget. }
  assert (Py.getitem tokens (5 + 3 * len body + 1) = Some t) as Et.
  { now rewrite Hget. }
  apply getitem_Some_bound in Et as Hb.
  set (q := extend p [(error_at ("expected return keyword, got '"
                                   ++ content closing ++ "'") closing,
                       5 + 3 * len body)]).
  assert (statement_loop (S (List.length tokens)) tokens (len head) [] p
          = Some (Returned ([] ++ map statement_node body,
                            len head + 3 * len body), q)) as Hloop.
  { unfold tokens at 2. unfold q. rewrite <- Hlen.
    apply statement_loop_body; try assumption.
    - rewrite Hclosing. discriminate.
    - apply body_fuel. }
  unfold parse, parse_fuel, expect_main. fold kinds_before.
  change (Py.slice_from tokens 0) with tokens.
  rewrite (match_tokens_match tokens kinds_before)
    by now apply header_kinds_match.
  change (Py.truthy (Py.Int (len kinds_before))) with true.
  change (Py.int_of (Py.Int (len kinds_before))) with 5.
  cbv iota. unfold bind at 1. unfold bind at 1.
  replace (0 + 5) with (len head) by lia.
  rewrite Hloop. cbn [app]. rewrite Hlen. unfold bind at 1.
  destruct (Z.gtb_spec (len tokens) (5 + 3 * len body)); [|lia].
  unfold subscript, bind at 1. rewrite Ec.
  unfold ret at 1. unfold ret at 1. rewrite Hclosing.
  change (kind_eqb close_brack close_brack) with true. cbv iota.
  unfold ret at 1.
  destruct (slice_from_first tokens (5 + 3 * len body + 1) t ltac:(lia) Et)
    as [rest' ->].
  unfold bind.
  now rewrite (make_error_AT "unexpected token" tokens (5 + 3 * len body + 1)
                             t q ltac:(lia) Et).
Qed.

(** [int main ( ) { return 4 ; } extra] *)
Lemma parse_trailing_token_witness :
  parse tokens_extra Parser_init
  = Some (Raised (SyntaxError
                    (mkCompilerError "unexpected token at 'extra'"
                                     (Some "main.c"%string) (Some 1))),
          {| errors := [(error_at "expected return keyword, got '}'"
                                  (tk close_brack "}"), 8)] |}).
Proof.
  apply (parse_trailing_token header
           [(tk return_kw "return", tk number "4", tk semicolon ";")]
           (tk close_brack "}") (tk (other_kind 0) "extra") [] Parser_init).
  - reflexivity.
  - repeat constructor.
  - reflexivity.
Defined.
